(** * Highlights generation pipeline (SEAG25): a shallow embedding

    The functions of [SEAG25/highlights/functions/generateHighlights.js] that
    decide the shape of a highlights deck, written as Rocq functions, and the
    properties the specification states about them.

    Conventions of the embedding.
    - A JavaScript string is a [string]: a sequence of 8-bit characters.  The
      whitespace class and the case mappings below are those of ECMAScript
      restricted to ASCII; a character above 127 is left alone by both case
      mappings and is not whitespace.
    - A number that the code only uses as an integer is a [Z] and [NaN] is
      [None]; JavaScript doubles agree with [Z] below 2^53.
    - A [Set] of strings is a [gset string]; a row object keyed by column
      header is a [gmap string string].
    - An array is a [list]. *)

From Stdlib Require Import ZArith Ascii String List Lia Bool Sorted Permutation.
From stdpp Require Import gmap strings list pretty.
From Equations Require Import Equations.

Local Open Scope Z_scope.

(** ** ECMAScript string primitives *)

Module Js.

(** [WhiteSpace] and [LineTerminator] code points below 128: TAB, LF, VT, FF,
    CR and SPACE. *)
Definition isWhiteSpace (c : ascii) : bool :=
  let n := nat_of_ascii c in
  Nat.eqb n 32 || (Nat.leb 9 n && Nat.leb n 13).

Definition isDigit (c : ascii) : bool :=
  let n := nat_of_ascii c in Nat.leb 48 n && Nat.leb n 57.

Definition digitValue (c : ascii) : Z := Z.of_nat (nat_of_ascii c) - 48.

Definition toUpperChar (c : ascii) : ascii :=
  let n := nat_of_ascii c in
  if Nat.leb 97 n && Nat.leb n 122 then ascii_of_nat (n - 32) else c.

Definition toLowerChar (c : ascii) : ascii :=
  let n := nat_of_ascii c in
  if Nat.leb 65 n && Nat.leb n 90 then ascii_of_nat (n + 32) else c.

Fixpoint mapString (f : ascii -> ascii) (s : string) : string :=
  match s with
  | EmptyString => EmptyString
  | String c s' => String (f c) (mapString f s')
  end.

(** [String.prototype.toUpperCase] and [toLowerCase]. *)
Definition toUpperCase : string -> string := mapString toUpperChar.
Definition toLowerCase : string -> string := mapString toLowerChar.

Fixpoint trimStart (s : string) : string :=
  match s with
  | EmptyString => EmptyString
  | String c s' => if isWhiteSpace c then trimStart s' else s
  end.

Fixpoint trimEnd (s : string) : string :=
  match s with
  | EmptyString => EmptyString
  | String c s' =>
      match trimEnd s' with
      | EmptyString => if isWhiteSpace c then EmptyString else String c EmptyString
      | r => String c r
      end
  end.

(** [String.prototype.trim]. *)
Definition trim (s : string) : string := trimEnd (trimStart s).

(** ToBoolean on a string: only the empty string is falsy. *)
Definition truthy (s : string) : bool :=
  match s with EmptyString => false | _ => true end.

(** [a || b] on strings. *)
Definition orElse (a b : string) : string := if truthy a then a else b.

Fixpoint startsWith (p s : string) : bool :=
  match p, s with
  | EmptyString, _ => true
  | String _ _, EmptyString => false
  | String a p', String b s' => Ascii.eqb a b && startsWith p' s'
  end.

(** [s.includes(sub)]: [sub] occurs in [s] as a contiguous substring. *)
Fixpoint includes (s sub : string) : bool :=
  startsWith sub s ||
  match s with
  | EmptyString => false
  | String _ s' => includes s' sub
  end.

(** [list.includes(x)] on an array of strings. *)
Definition arrayIncludes (l : list string) (x : string) : bool :=
  existsb (String.eqb x) l.

(** [s.split(sep)] where the separator matches exactly one character out of a
    class ([':'], [/\n|,/], [/[\/\-]/]): never an empty array, and the empty
    string splits to one empty segment. *)
Fixpoint splitOn (sep : ascii -> bool) (s : string) : list string :=
  match s with
  | EmptyString => [EmptyString]
  | String c s' =>
      if sep c then EmptyString :: splitOn sep s'
      else match splitOn sep s' with
           | seg :: segs => String c seg :: segs
           | [] => [String c EmptyString]
           end
  end.

(** [segs.join(sep)]. *)
Fixpoint join (sep : string) (segs : list string) : string :=
  match segs with
  | [] => EmptyString
  | [seg] => seg
  | seg :: segs' => seg +:+ sep +:+ join sep segs'
  end.

(** The decimal value of the longest prefix of digits, read left to right;
    [None] when the prefix is empty. *)
Fixpoint digitsPrefix (acc : option Z) (s : string) : option Z :=
  match s with
  | String c s' =>
      if isDigit c
      then digitsPrefix (Some (10 * default 0 acc + digitValue c)) s'
      else acc
  | EmptyString => acc
  end.

(** [parseInt(s, 10)]: leading whitespace is skipped, one sign is read, then
    the longest run of decimal digits; [None] is [NaN]. *)
Definition parseInt (s : string) : option Z :=
  match trimStart s with
  | String "-" s' => Z.opp <$> digitsPrefix None s'
  | String "+" s' => digitsPrefix None s'
  | s' => digitsPrefix None s'
  end.

(** [n || 0] on a number: [NaN] and zero both give zero. *)
Definition numOrZero (n : option Z) : Z := default 0 n.

(** Number.prototype.toString on an integer. *)
Definition numToString (n : Z) : string := pretty n.

(** [String(n).padStart(2, '0')] on an integer. *)
Definition padStart2 (n : Z) : string :=
  let s := numToString n in
  if Nat.ltb (String.length s) 2 then "0" +:+ s else s.

(** [arr.findIndex(p)]; [None] is the [-1] of JavaScript. *)
Fixpoint findIndex {A : Type} (p : A -> bool) (l : list A) : option nat :=
  match l with
  | [] => None
  | x :: l' => if p x then Some 0%nat else S <$> findIndex p l'
  end.

End Js.

Import Js.

(** ** RuleIndex: the head-to-head rules table *)

(** [row[idx] || ''] on a row of cells. *)
Definition cell (row : list string) (idx : nat) : string :=
  orElse (default EmptyString (row !! idx)) EmptyString.

(** The separator class of [/\n|,/]. *)
Definition isListSep (c : ascii) : bool :=
  Ascii.eqb c "010" || Ascii.eqb c ",".

(** The key template [`${sport}|${discipline}`]. *)
Definition h2hKey (sport discipline : string) : string :=
  sport +:+ "|" +:+ discipline.

(** The body of the row loop of [loadH2HSportsMapping]: what one row of the
    rules table adds to [h2hCombinations]. *)
Definition addRowCombinations (sportsColIdx : nat) (disciplinesColIdx : option nat)
    (h2hColIdx : nat) (h2hCombinations : gset string) (row : list string)
  : gset string :=
  let h2h := toLowerCase (trim (cell row h2hColIdx)) in
  if String.eqb h2h "yes" then
    let sports := trim (cell row sportsColIdx) in
    let disciplines :=
      match disciplinesColIdx with
      | Some d => trim (cell row d)
      | None => EmptyString
      end in
    let sportList :=
      if truthy sports
      then map (fun s => toUpperCase (trim s)) (splitOn isListSep sports)
      else [] in
    let disciplineList :=
      if truthy disciplines
      then map (fun d => toUpperCase (trim d)) (splitOn isListSep disciplines)
      else [] in
    if Nat.ltb 0 (length sportList) then
      if Nat.ltb 0 (length disciplineList) then
        foldl (fun acc sport =>
                 foldl (fun acc' discipline => {[ h2hKey sport discipline ]} ∪ acc')
                       acc disciplineList)
              h2hCombinations sportList
      else
        foldl (fun acc sport => {[ sport +:+ "|*" ]} ∪ acc) h2hCombinations sportList
    else h2hCombinations
  else h2hCombinations.

Definition headerIs (name : string) (h : string) : bool :=
  truthy h && String.eqb (toUpperCase h) name.

(** [loadH2HSportsMapping]: [h2hSportsCache] is the module-level cache before
    the call and [response] the values the sheet request returned ([None] when
    the request threw).  The value returned is also the cache after the call. *)
Definition loadH2HSportsMapping (h2hSportsCache : option (gset string))
    (response : option (list (list string))) : gset string :=
  match h2hSportsCache with
  | Some cached => cached
  | None =>
      match response with
      | None => ∅
      | Some rows =>
          if Nat.ltb (length rows) 2 then ∅
          else
            let headers := default [] (rows !! 0%nat) in
            match findIndex (headerIs "SPORTS") headers,
                  findIndex (headerIs "H2H") headers with
            | Some sportsColIdx, Some h2hColIdx =>
                foldl (addRowCombinations sportsColIdx
                         (findIndex (headerIs "DISCIPLINES") headers) h2hColIdx)
                      ∅ (drop 1 rows)
            | _, _ => ∅
            end
      end
  end.

(** [h2hMapping.has(key)]. *)
Definition has (h2hMapping : gset string) (key : string) : bool :=
  bool_decide (key ∈ h2hMapping).

(** [isH2HSport]; a missing mapping ([null]) is [None]. *)
Definition isH2HSport (sport discipline : string) (h2hMapping : option (gset string))
  : bool :=
  match h2hMapping with
  | None => false
  | Some mapping =>
      if Nat.eqb (size mapping) 0 then false
      else
        let sportUpper := toUpperCase (trim (orElse sport EmptyString)) in
        let disciplineUpper := toUpperCase (trim (orElse discipline EmptyString)) in
        if truthy disciplineUpper && has mapping (sportUpper +:+ "|" +:+ disciplineUpper)
        then true
        else if has mapping (sportUpper +:+ "|*") then true
        else if negb (truthy disciplineUpper) && has mapping (sportUpper +:+ "|")
        then true
        else false
  end.

(** ** RowFilter *)

Inductive ColumnKey :=
  | SPORT | SPORT_TEAMSG | DISCIPLINE | EVENT | EVENT_CUSTOM | EVENT_GENDER
  | STAGE | STAGE_TEMPLATE | HEAT | VENUE | DATE_SGP | TIME_START_SGP
  | TIME_END_SGP | ATHLETE_NAME | COUNTRY_SGP | TIMING_SGP | SCORE_SGP
  | SCORE_COMPETITOR | COMPETITOR_NAME | COMPETITOR_COUNTRY | WIN_DRAW_LOSE
  | POSITION | FINAL_POSITION | ADVANCED | MEDALS | REMARKS.

Definition COLUMN_MAPPINGS (key : ColumnKey) : string :=
  match key with
  | SPORT => "SPORT"
  | SPORT_TEAMSG => "SPORT (TEAMSG WEBSITE)"
  | DISCIPLINE => "DISCIPLINE"
  | EVENT => "EVENT"
  | EVENT_CUSTOM => "CUSTOM EVENT NAME (TEAMSG WEBSITE)"
  | EVENT_GENDER => "EVENT GENDER"
  | STAGE => "STAGE / ROUND OF COMPETITION"
  | STAGE_TEMPLATE => "STAGE / ROUND OF COMPETITION (TEMPLATE)"
  | HEAT => "HEAT NUMBER"
  | VENUE => "COMPETITION VENUE"
  | DATE_SGP => "DATE"
  | TIME_START_SGP => "TIME START (SGP) 24HR CLOCK"
  | TIME_END_SGP => "TIME END (SGP) 24HR CLOCK"
  | ATHLETE_NAME => "NAME OF ATHLETE (SGP)"
  | COUNTRY_SGP => "COUNTRY NAME (SGP)"
  | TIMING_SGP => "TIMING (SGP) hh:mm:ss.ms"
  | SCORE_SGP => "SCORE/DISTANCE/HEIGHT (SGP)"
  | SCORE_COMPETITOR => "SCORE (COMPETITOR)"
  | COMPETITOR_NAME => "NAME OF ATHLETE (COMPETITOR)"
  | COMPETITOR_COUNTRY => "COUNTRY NAME (COMPETITOR)"
  | WIN_DRAW_LOSE => "H2H WIN/DRAW/LOSE"
  | POSITION => "POSITION"
  | FINAL_POSITION => "FINAL POSITION IN EVENT"
  | ADVANCED => "ADVANCED"
  | MEDALS => "MEDAL"
  | REMARKS => "REMARKS"
  end.

(** A data row as [loadData] builds it: column header to cell text. *)
Abbreviation Row := (gmap string string).

(** [getCol]: [(row[colName] || '').trim()]. *)
Definition getCol (row : Row) (key : ColumnKey) : string :=
  trim (orElse (default EmptyString (row !! COLUMN_MAPPINGS key)) EmptyString).

Definition hasValue (row : Row) (key : ColumnKey) : bool :=
  negb (String.eqb (getCol row key) EmptyString).

(** The test of one iteration of the loop of [filterHighlightRows]: [true]
    when the row is pushed onto [validRows]. *)
Definition keepsRow (row : Row) : bool :=
  let medals := getCol row MEDALS in
  let medalText := trim (orElse medals EmptyString) in
  let isGoldMedal :=
    truthy medalText &&
    negb (arrayIncludes ["na"; "n/a"; "none"; "no medal"; "nil"] (toLowerCase medalText)) &&
    includes (toLowerCase medalText) "gold" in
  if negb isGoldMedal then false
  else
    let hasCompetitorName := hasValue row COMPETITOR_NAME in
    let hasCompetitorCountry := hasValue row COMPETITOR_COUNTRY in
    let isH2H := hasCompetitorName && hasCompetitorCountry in
    if isH2H then
      let hasBasic := hasValue row SPORT && hasValue row EVENT &&
                      hasValue row STAGE && hasValue row ATHLETE_NAME in
      let hasScore := hasValue row SCORE_SGP || hasValue row SCORE_COMPETITOR in
      hasBasic && hasScore
    else
      let hasBasic := hasValue row SPORT && hasValue row EVENT &&
                      hasValue row STAGE && hasValue row ATHLETE_NAME in
      let hasResult := hasValue row TIMING_SGP || hasValue row SCORE_SGP in
      hasBasic && hasResult.

(** [filterHighlightRows]: the loop over [data], pushing onto [validRows]. *)
Definition filterHighlightRows (data : list Row) : list Row :=
  foldl (fun validRows row => if keepsRow row then validRows ++ [row] else validRows)
        [] data.

(** ** Elapsed-time normalisation *)

Definition isColon (c : ascii) : bool := Ascii.eqb c ":".

(** [formatTiming]. *)
Definition formatTiming (timingStr : string) : string :=
  if negb (truthy timingStr) then EmptyString
  else
    let result := trim timingStr in
    let parts := splitOn isColon result in
    match parts with
    | [p0; p1; p2] =>
        let hours := numOrZero (parseInt p0) in
        let minutes := numOrZero (parseInt p1) in
        let seconds := p2 in
        if (hours =? 0) && (minutes =? 0) then seconds
        else if hours =? 0 then numToString minutes +:+ ":" +:+ seconds
        else numToString hours +:+ ":" +:+ numToString minutes +:+ ":" +:+ seconds
    | [p0; p1] =>
        let minutes := numOrZero (parseInt p0) in
        let seconds := p1 in
        if minutes =? 0 then seconds
        else numToString minutes +:+ ":" +:+ seconds
    | _ => result
    end.

(** ** Dates *)

(** Day number (days since 1970-01-01) of a civil date of the proleptic
    Gregorian calendar, [m] in 1..12; [d] may lie outside the month and then
    runs over into the neighbouring months, as in ECMAScript's MakeDay. *)
Definition daysFromCivil (y m d : Z) : Z :=
  let y' := if m <=? 2 then y - 1 else y in
  let era := y' / 400 in
  let yoe := y' - era * 400 in
  let doy := (153 * (if 2 <? m then m - 3 else m + 9) + 2) / 5 + d - 1 in
  let doe := yoe * 365 + yoe / 4 - yoe / 100 + doy in
  era * 146097 + doe - 719468.

(** The civil date [(year, month 1..12, day)] of a day number. *)
Definition civilFromDays (z : Z) : Z * Z * Z :=
  let z' := z + 719468 in
  let era := z' / 146097 in
  let doe := z' - era * 146097 in
  let yoe := (doe - doe / 1460 + doe / 36524 - doe / 146096) / 365 in
  let doy := doe - (365 * yoe + yoe / 4 - yoe / 100) in
  let mp := (5 * doy + 2) / 153 in
  let d := doy - (153 * mp + 2) / 5 + 1 in
  let m := if mp <? 10 then mp + 3 else mp - 9 in
  let y := yoe + era * 400 in
  (if m <=? 2 then y + 1 else y, m, d).

Definition msPerDay : Z := 86400000.

(** [new Date(year, monthIndex, day)] on numbers, [None] being [NaN]: the time
    value in milliseconds, or [None] for an Invalid Date.  A year in 0..99 is
    read as 1900 + year; the month index carries into the year; the result is
    clipped to the range of time values (TimeClip).  The host's local time
    zone is taken to be UTC. *)
Definition newDate (year monthIndex day : option Z) : option Z :=
  match year, monthIndex, day with
  | Some y, Some m, Some dt =>
      let yr := if (0 <=? y) && (y <=? 99) then 1900 + y else y in
      let ym := yr + m / 12 in
      let mn := m mod 12 in
      let t := (daysFromCivil ym (mn + 1) 1 + dt - 1) * msPerDay in
      if Z.abs t <=? 8640000000000000 then Some t else None
  | _, _, _ => None
  end.

(** Is the whole string an optional sign followed by decimal digits? *)
Definition isIntegerLiteral (s : string) : bool :=
  let digits :=
    match s with
    | String "-" s' => s'
    | String "+" s' => s'
    | _ => s
    end in
  truthy digits && String.eqb (mapString (fun c => if isDigit c then "0"%char else "x"%char) digits)
                              (mapString (fun _ => "0"%char) digits).

(** ToNumber on a string, as the [Date] constructor applies it to a cell
    segment: surrounding whitespace is dropped, the empty string is 0 and a
    signed run of decimal digits is its value.  The other numeric literals of
    ECMAScript (fractions, exponents, [0x], [Infinity]) do not occur in date
    cells and are read here as [NaN]. *)
Definition toNumber (s : string) : option Z :=
  let t := trim s in
  if negb (truthy t) then Some 0
  else if isIntegerLiteral t then parseInt t else None.

(** The value [normalizeDate] receives. *)
Inductive DateInput :=
  | InString (s : string)
  | InDate (timeValue : option Z)      (* a Date object; [None]: Invalid Date *)
  | InOther.                           (* undefined, null, a number, ... *)

(** The test [/^\d{4}-\d{2}-\d{2}$/]. *)
Definition isIsoDate (s : string) : bool :=
  String.eqb (mapString (fun c => if isDigit c then "0"%char else c) s) "0000-00-00".

(** The separator class of [/[\/\-]/]. *)
Definition isDateSep (c : ascii) : bool := Ascii.eqb c "/" || Ascii.eqb c "-".

(** [year > 2000] on a number that may be [NaN]. *)
Definition gtNum (n : option Z) (k : Z) : bool :=
  match n with Some v => k <? v | None => false end.

(** The tail of [normalizeDate]: the local calendar fields of [dateObj]. *)
Definition formatDateObj (dateObj : option Z) : string :=
  match dateObj with
  | None => EmptyString
  | Some t =>
      let '(year, month, day) := civilFromDays (t / msPerDay) in
      numToString year +:+ "-" +:+ padStart2 month +:+ "-" +:+ padStart2 day
  end.

Section HostDates.

(** [new Date(string)]: the host's date parser, whose accepted formats are
    implementation-defined. *)
Variable dateParse : string -> option Z.

(** [normalizeDate]. *)
Definition normalizeDate (dateInput : DateInput) : string :=
  match dateInput with
  | InOther => EmptyString
  | InDate t => formatDateObj t
  | InString s =>
      if negb (truthy s) then EmptyString
      else if isIsoDate s then s
      else
        let parts := splitOn isDateSep s in
        let dateObj :=
          match parts with
          | [p0; p1; p2] =>
              let day := parseInt p0 in
              let month := parseInt p1 in
              let year := parseInt p2 in
              if gtNum year 2000 then
                if Nat.eqb (String.length p0) 4
                then newDate year (Z.pred <$> month) day
                else newDate year (Z.pred <$> month) day
              else newDate (toNumber p2) (Z.pred <$> toNumber p0) (toNumber p1)
          | _ => dateParse s
          end in
        formatDateObj dateObj
  end.

End HostDates.

(** ** RecordNormalizer *)

Module Highlight.
Record t := {
  sport : string;
  sportTeamsg : string;
  discipline : string;
  event : string;
  eventCustom : string;
  eventGender : string;
  stage : string;
  heat : string;
  venue : string;
  dateSgp : string;
  athleteName : string;
  countrySgp : string;
  timingSgp : string;
  scoreSgp : string;
  scoreCompetitor : string;
  competitorName : string;
  competitorCountry : string;
  winDrawLose : string;
  position : string;
  finalPosition : string;
  advanced : string;
  medals : string;
  remarks : string;
  type : string;
}.
End Highlight.

(** [formatHighlightData]. *)
Definition formatHighlightData (row : Row) (h2hMapping : option (gset string))
  : Highlight.t :=
  let sport := getCol row SPORT in
  let sportTeamsg := orElse (getCol row SPORT_TEAMSG) sport in
  let discipline := getCol row DISCIPLINE in
  let isH2H :=
    match h2hMapping with
    | Some _ => isH2HSport sport discipline h2hMapping
    | None => false
    end in
  let competitorName := getCol row COMPETITOR_NAME in
  let competitorCountry := getCol row COMPETITOR_COUNTRY in
  {| Highlight.sport := sport;
     Highlight.sportTeamsg := sportTeamsg;
     Highlight.discipline := discipline;
     Highlight.event := getCol row EVENT;
     Highlight.eventCustom := getCol row EVENT_CUSTOM;
     Highlight.eventGender := getCol row EVENT_GENDER;
     Highlight.stage := getCol row STAGE;
     Highlight.heat := getCol row HEAT;
     Highlight.venue := getCol row VENUE;
     Highlight.dateSgp := getCol row DATE_SGP;
     Highlight.athleteName := getCol row ATHLETE_NAME;
     Highlight.countrySgp := orElse (getCol row COUNTRY_SGP) "SGP";
     Highlight.timingSgp := formatTiming (getCol row TIMING_SGP);
     Highlight.scoreSgp := getCol row SCORE_SGP;
     Highlight.scoreCompetitor := getCol row SCORE_COMPETITOR;
     Highlight.competitorName := competitorName;
     Highlight.competitorCountry := competitorCountry;
     Highlight.winDrawLose := getCol row WIN_DRAW_LOSE;
     Highlight.position := getCol row POSITION;
     Highlight.finalPosition := getCol row FINAL_POSITION;
     Highlight.advanced := getCol row ADVANCED;
     Highlight.medals := getCol row MEDALS;
     Highlight.remarks := getCol row REMARKS;
     Highlight.type := if isH2H then "h2h" else "non-h2h" |}.

(** ** CardBuilder *)

Module Competitor.
Record t := {
  flagIcon : string;
  flagImage : string;
  name : string;
  country : string;
  score : string;
  isPrimary : bool;
}.
End Competitor.

Module Card.
Record t := {
  index : Z;
  sport : string;
  sportIconUrl : string;
  medalLabel : string;
  medalIcon : string;
  athletes : string;
  eventDetails : string;
  resultSummary : string;
  resultBadge : string;
  competitors : list Competitor.t;
}.

(** [card.index = i]. *)
Definition setIndex (i : Z) (c : t) : t :=
  {| index := i; sport := sport c; sportIconUrl := sportIconUrl c;
     medalLabel := medalLabel c; medalIcon := medalIcon c; athletes := athletes c;
     eventDetails := eventDetails c; resultSummary := resultSummary c;
     resultBadge := resultBadge c; competitors := competitors c |}.
End Card.

(** The table [flagMap] of [resolveFlag], in the order of its entries: country
    key to flag code and file extension. *)
Definition flagMap : list (string * (string * string)) :=
  [ ("SGP", ("SIN", "png")); ("SINGAPORE", ("SIN", "png"));
    ("MAS", ("MAS", "png")); ("MALAYSIA", ("MAS", "png"));
    ("THA", ("THA", "png")); ("THAILAND", ("THA", "png"));
    ("PHI", ("PHI", "png")); ("PHILIPPINES", ("PHI", "png"));
    ("VIE", ("VIE", "png")); ("VIETNAM", ("VIE", "png"));
    ("INA", ("INA", "png")); ("INDONESIA", ("INA", "png"));
    ("MYA", ("MYA", "png")); ("MYANMAR", ("MYA", "png"));
    ("CAM", ("CAM", "png")); ("CAMBODIA", ("CAM", "png"));
    ("LAO", ("LAO", "png")); ("LAOS", ("LAO", "png"));
    ("BRU", ("BRU", "jpg")); ("BRUNEI", ("BRU", "jpg"));
    ("TLS", ("TLS", "png")); ("TIMOR-LESTE", ("TLS", "png")) ].

(** [resolveFlag]: the pair [(icon, image)]. *)
Definition resolveFlag (countryValue : string) : string * string :=
  if negb (truthy countryValue) then (EmptyString, EmptyString)
  else
    let country := toUpperCase (trim countryValue) in
    if negb (truthy country) then (EmptyString, EmptyString)
    else
      let flagInfo :=
        match List.find (fun e => String.eqb (fst e) country) flagMap with
        | Some e => Some (snd e)
        | None =>
            snd <$> List.find (fun e => includes country (fst e) || includes (fst e) country)
                              flagMap
        end in
      match flagInfo with
      | Some (code, ext) => (EmptyString, "flags/" +:+ code +:+ "." +:+ ext)
      | None => (EmptyString, EmptyString)
      end.

(** [normalizeMedal]: the pair [(label, icon)]. *)
Definition normalizeMedal (medalValue : string) : string * string :=
  if negb (truthy medalValue) then (EmptyString, EmptyString)
  else
    let medalText := toLowerCase (trim medalValue) in
    if negb (truthy medalText) ||
       arrayIncludes ["na"; "n/a"; "none"; "no medal"; "nil"] medalText
    then (EmptyString, EmptyString)
    else if includes medalText "gold" then (trim medalValue, "🥇")
    else if includes medalText "silver" then (trim medalValue, "🥈")
    else if includes medalText "bronze" then (trim medalValue, "🥉")
    else (EmptyString, EmptyString).

(** [generateResultSummary]. *)
Definition generateResultSummary (highlight : Highlight.t) : string :=
  let parts0 :=
    if String.eqb (Highlight.type highlight) "h2h" then
      if truthy (Highlight.scoreSgp highlight) && truthy (Highlight.scoreCompetitor highlight)
      then [Highlight.scoreSgp highlight +:+ "-" +:+ Highlight.scoreCompetitor highlight]
      else if truthy (Highlight.scoreSgp highlight) then [Highlight.scoreSgp highlight]
      else []
    else
      if truthy (Highlight.timingSgp highlight)
      then ["Time: " +:+ Highlight.timingSgp highlight]
      else if truthy (Highlight.scoreSgp highlight)
      then ["Score: " +:+ Highlight.scoreSgp highlight]
      else [] in
  let parts :=
    if truthy (Highlight.medals highlight)
    then parts0 ++ [Highlight.medals highlight] else parts0 in
  orElse (join " | " parts) "Result information".

(** [cards.slice(i, j)] for [i <= j]. *)
Definition slice {A : Type} (l : list A) (i j : nat) : list A :=
  take (j - i) (drop i l).

(** The [for] loop of [chunkCards], entered with a positive [chunkSize]:
    [i] is the loop counter and [slides] the array built so far. *)
Equations chunkLoop {A : Type} (cards : list A) (chunkSize : nat)
    (pos : (0 < chunkSize)%nat) (i : nat) (slides : list (list A))
  : list (list A) by wf (length cards - i)%nat lt :=
  chunkLoop cards chunkSize pos i slides with decide (i < length cards)%nat := {
    | left _ =>
        chunkLoop cards chunkSize pos (i + chunkSize)
                  (slides ++ [slice cards i (i + chunkSize)])
    | right _ => slides }.
Next Obligation. lia. Qed.

(** [chunkCards]; [chunkSize] is an integer. *)
Definition chunkCards {A : Type} (cards : list A) (chunkSize : Z) : list (list A) :=
  match decide (0 < Z.to_nat chunkSize)%nat with
  | right _ => [cards]
  | left pos =>
      let slides := chunkLoop cards (Z.to_nat chunkSize) pos 0 [] in
      if Nat.ltb 0 (length slides) then slides else [[]]
  end.

(** [arr.sort(compare)]: a stable sort.  [insertSorted x l] puts [x], which
    stood before every element of [l] in the input, in front of the first
    element it does not compare greater than. *)
Fixpoint insertSorted {A : Type} (compare : A -> A -> Z) (x : A) (l : list A) : list A :=
  match l with
  | [] => [x]
  | y :: l' => if 0 <? compare x y then y :: insertSorted compare x l' else x :: l
  end.

Fixpoint sortStable {A : Type} (compare : A -> A -> Z) (l : list A) : list A :=
  match l with
  | [] => []
  | x :: l' => insertSorted compare x (sortStable compare l')
  end.

(** [cards.forEach((card, idx) => { card.index = idx + 1; })]. *)
Definition renumber (cards : list Card.t) : list Card.t :=
  imap (fun idx card => Card.setIndex (Z.of_nat idx + 1) card) cards.

Section Host.

(** [getSportIconUrl], which reads the icon table and the icon files of the
    deployment. *)
Variable getSportIconUrl : string -> string.

(** [String.prototype.localeCompare]: the collation of the host's locale; its
    sign is what [sort] reads. *)
Variable localeCompare : string -> string -> Z.

(** [buildCardFromHighlight]. *)
Definition buildCardFromHighlight (highlight : Highlight.t) (index : Z) : Card.t :=
  let sport := trim (orElse (Highlight.sport highlight) "Sport Name") in
  let sportTeamsg := trim (orElse (Highlight.sportTeamsg highlight) sport) in
  let eventCustom :=
    trim (orElse (orElse (Highlight.eventCustom highlight) (Highlight.event highlight))
                 EmptyString) in
  let stage := trim (orElse (Highlight.stage highlight) EmptyString) in
  let eventDetails :=
    if truthy eventCustom && truthy stage
    then eventCustom +:+ " - " +:+ stage
    else orElse (orElse eventCustom stage) "Event Details" in
  let scoreSgp := trim (orElse (Highlight.scoreSgp highlight) EmptyString) in
  let scoreCompetitor := trim (orElse (Highlight.scoreCompetitor highlight) EmptyString) in
  let timing := trim (orElse (Highlight.timingSgp highlight) EmptyString) in
  let isH2H := String.eqb (Highlight.type highlight) "h2h" in
  let '(primaryScore, opponentScore) :=
    if isH2H then
      if truthy scoreSgp && truthy scoreCompetitor then (scoreSgp, scoreCompetitor)
      else if truthy scoreSgp then (scoreSgp, orElse scoreCompetitor EmptyString)
      else if truthy scoreCompetitor then (orElse scoreSgp EmptyString, scoreCompetitor)
      else (EmptyString, EmptyString)
    else
      if truthy scoreSgp then (scoreSgp, EmptyString)
      else if truthy timing then (timing, EmptyString)
      else (EmptyString, EmptyString) in
  let '(medalLabel, medalIcon) := normalizeMedal (Highlight.medals highlight) in
  let primaryName := trim (orElse (Highlight.athleteName highlight) "Athlete Name") in
  let primaryCountry := trim (orElse (Highlight.countrySgp highlight) "SGP") in
  let primaryFlag := resolveFlag primaryCountry in
  let competitors0 :=
    [ {| Competitor.flagIcon := fst primaryFlag;
         Competitor.flagImage := snd primaryFlag;
         Competitor.name := primaryName;
         Competitor.country := primaryCountry;
         Competitor.score := primaryScore;
         Competitor.isPrimary := true |} ] in
  let competitors :=
    if isH2H then
      let competitorName := trim (orElse (Highlight.competitorName highlight) EmptyString) in
      let competitorCountry :=
        trim (orElse (Highlight.competitorCountry highlight) EmptyString) in
      if truthy competitorName || truthy competitorCountry then
        let opponentFlag := resolveFlag competitorCountry in
        competitors0 ++
        [ {| Competitor.flagIcon := fst opponentFlag;
             Competitor.flagImage := snd opponentFlag;
             Competitor.name := orElse competitorName "Opponent";
             Competitor.country := competitorCountry;
             Competitor.score := opponentScore;
             Competitor.isPrimary := false |} ]
      else competitors0
    else competitors0 in
  let resultBadge :=
    orElse (trim (orElse (Highlight.winDrawLose highlight) EmptyString)) medalLabel in
  {| Card.index := index;
     Card.sport := sportTeamsg;
     Card.sportIconUrl := getSportIconUrl sport;
     Card.medalLabel := medalLabel;
     Card.medalIcon := medalIcon;
     Card.athletes := primaryName;
     Card.eventDetails := eventDetails;
     Card.resultSummary := generateResultSummary highlight;
     Card.resultBadge :=
       if truthy resultBadge &&
          negb (arrayIncludes ["na"; "n/a"; "none"] (toLowerCase resultBadge))
       then resultBadge else EmptyString;
     Card.competitors := competitors |}.

(** The comparison function handed to [sort] in [generateHTML]. *)
Definition compareCards (a b : Card.t) : Z :=
  localeCompare (Card.sport a) (Card.sport b).

(** The sort and the renumbering of [generateHTML], on cards already built. *)
Definition sortAndRenumber (cards : list Card.t) : list Card.t :=
  renumber (sortStable compareCards cards).

(** [generateHTML] up to the call of the template: the cards in their final
    order and the slides. *)
Definition generateHTML_cards (highlights : list Highlight.t) : list Card.t :=
  let cards := imap (fun idx highlight =>
                       buildCardFromHighlight highlight (Z.of_nat idx + 1))
                    highlights in
  sortAndRenumber cards.

Definition generateHTML_slides (highlights : list Highlight.t) : list (list Card.t) :=
  chunkCards (generateHTML_cards highlights) 9.

End Host.

(** ** The rules in the words of the specification *)

(** The null-markers: strings that stand for no value. *)
Definition nullMarkers : list string := ["na"; "n/a"; "none"; "no medal"; "nil"].

Definition isNullMarker (s : string) : bool :=
  arrayIncludes nullMarkers (toLowerCase s).

(** Eligibility of a row, clause by clause: (a) the medal field contains
    gold, whatever the case, and is not a null-marker; (b) sport, event,
    stage and athlete name are not empty once trimmed; (c) a result is there:
    either score when opponent name and country are both given, else the
    elapsed time or the score. *)
Definition isEligible (row : Row) : bool :=
  (includes (toLowerCase (getCol row MEDALS)) "gold" &&
   negb (isNullMarker (getCol row MEDALS))) &&
  (hasValue row SPORT && hasValue row EVENT && hasValue row STAGE &&
   hasValue row ATHLETE_NAME) &&
  (if hasValue row COMPETITOR_NAME && hasValue row COMPETITOR_COUNTRY
   then hasValue row SCORE_SGP || hasValue row SCORE_COMPETITOR
   else hasValue row TIMING_SGP || hasValue row SCORE_SGP).

(** The integer that an hour or minute segment stands for in [formatTiming]. *)
Definition unitValue (seg : string) : Z := numOrZero (parseInt seg).

Definition isZeroUnit (seg : string) : bool := unitValue seg =? 0.

Fixpoint dropWhile {A : Type} (p : A -> bool) (l : list A) : list A :=
  match l with
  | [] => []
  | x :: l' => if p x then dropWhile p l' else l
  end.

(** The elapsed-time rule as the specification words it: of two or three
    colon-separated segments the leading ones that stand for zero are dropped
    and every segment that stays is copied as written; any other input passes
    through. *)
Definition stripLeadingZeroUnits (timing : string) : string :=
  let segs := splitOn isColon timing in
  match segs with
  | [_; _] | [_; _; _] =>
      join ":" (dropWhile isZeroUnit (removelast segs) ++ [List.last segs EmptyString])
  | _ => timing
  end.

Fixpoint allChars (p : ascii -> bool) (s : string) : bool :=
  match s with
  | EmptyString => true
  | String c s' => p c && allChars p s'
  end.

(** The text of a seconds field [ss.ms]: digits and dots. *)
Definition isSecondsText (s : string) : bool :=
  allChars (fun c => isDigit c || Ascii.eqb c ".") s.

(** The result badge as the specification words it: the trimmed win/draw/lose
    field when it is present and not a null-marker, else the medal label; a
    badge that is a null-marker is blanked. *)
Definition specResultBadge (highlight : Highlight.t) : string :=
  let winDrawLose := trim (Highlight.winDrawLose highlight) in
  let badge :=
    if truthy winDrawLose && negb (isNullMarker winDrawLose) then winDrawLose
    else fst (normalizeMedal (Highlight.medals highlight)) in
  if isNullMarker badge then EmptyString else badge.

(** The record [highlight] with another opponent score. *)
Definition withScoreCompetitor (scoreCompetitor : string) (highlight : Highlight.t)
  : Highlight.t :=
  {| Highlight.sport := Highlight.sport highlight;
     Highlight.sportTeamsg := Highlight.sportTeamsg highlight;
     Highlight.discipline := Highlight.discipline highlight;
     Highlight.event := Highlight.event highlight;
     Highlight.eventCustom := Highlight.eventCustom highlight;
     Highlight.eventGender := Highlight.eventGender highlight;
     Highlight.stage := Highlight.stage highlight;
     Highlight.heat := Highlight.heat highlight;
     Highlight.venue := Highlight.venue highlight;
     Highlight.dateSgp := Highlight.dateSgp highlight;
     Highlight.athleteName := Highlight.athleteName highlight;
     Highlight.countrySgp := Highlight.countrySgp highlight;
     Highlight.timingSgp := Highlight.timingSgp highlight;
     Highlight.scoreSgp := Highlight.scoreSgp highlight;
     Highlight.scoreCompetitor := scoreCompetitor;
     Highlight.competitorName := Highlight.competitorName highlight;
     Highlight.competitorCountry := Highlight.competitorCountry highlight;
     Highlight.winDrawLose := Highlight.winDrawLose highlight;
     Highlight.position := Highlight.position highlight;
     Highlight.finalPosition := Highlight.finalPosition highlight;
     Highlight.advanced := Highlight.advanced highlight;
     Highlight.medals := Highlight.medals highlight;
     Highlight.remarks := Highlight.remarks highlight;
     Highlight.type := Highlight.type highlight |}.

(** The fields that [buildCardFromHighlight] guards with a placeholder carry
    no surrounding whitespace, as [formatHighlightData] leaves them. *)
Definition trimmedRecord (highlight : Highlight.t) : Prop :=
  trim (Highlight.sport highlight) = Highlight.sport highlight ∧
  trim (Highlight.sportTeamsg highlight) = Highlight.sportTeamsg highlight ∧
  trim (Highlight.athleteName highlight) = Highlight.athleteName highlight ∧
  trim (Highlight.countrySgp highlight) = Highlight.countrySgp highlight.

(** A gold-medal record for the examples; the other fields are empty. *)
Definition exampleHighlight
    (sport sportTeamsg athleteName winDrawLose medals type : string) : Highlight.t :=
  {| Highlight.sport := sport;
     Highlight.sportTeamsg := sportTeamsg;
     Highlight.discipline := EmptyString;
     Highlight.event := "Final";
     Highlight.eventCustom := EmptyString;
     Highlight.eventGender := EmptyString;
     Highlight.stage := "Final";
     Highlight.heat := EmptyString;
     Highlight.venue := EmptyString;
     Highlight.dateSgp := "2025-12-10";
     Highlight.athleteName := athleteName;
     Highlight.countrySgp := "SGP";
     Highlight.timingSgp := EmptyString;
     Highlight.scoreSgp := "2";
     Highlight.scoreCompetitor := "1";
     Highlight.competitorName := EmptyString;
     Highlight.competitorCountry := "MAS";
     Highlight.winDrawLose := winDrawLose;
     Highlight.position := EmptyString;
     Highlight.finalPosition := EmptyString;
     Highlight.advanced := EmptyString;
     Highlight.medals := medals;
     Highlight.remarks := EmptyString;
     Highlight.type := type |}.

(** A deployment without icons, to run the examples. *)
Definition noIcons : string -> string := fun _ => EmptyString.

(** Comparison by character codes, left to right: one collation that
    [localeCompare] may be, to run the examples. *)
Fixpoint codeUnitCompare (a b : string) : Z :=
  match a, b with
  | EmptyString, EmptyString => 0
  | EmptyString, String _ _ => -1
  | String _ _, EmptyString => 1
  | String x a', String y b' =>
      if Nat.ltb (nat_of_ascii x) (nat_of_ascii y) then -1
      else if Nat.ltb (nat_of_ascii y) (nat_of_ascii x) then 1
      else codeUnitCompare a' b'
  end.

(** A fully populated row whose medal cell is NA. *)
Definition rowWithMedalNA : Row :=
  list_to_map
    [ ("MEDAL", "NA"); ("SPORT", "Swimming"); ("EVENT", "100m Freestyle");
      ("STAGE / ROUND OF COMPETITION", "Final"); ("NAME OF ATHLETE (SGP)", "Tan");
      ("TIMING (SGP) hh:mm:ss.ms", "00:00:48.12");
      ("SCORE/DISTANCE/HEIGHT (SGP)", "1"); ("SCORE (COMPETITOR)", "0");
      ("NAME OF ATHLETE (COMPETITOR)", "Lee"); ("COUNTRY NAME (COMPETITOR)", "MAS") ].

(** The order that [sort] is asked for in [generateHTML]: a card is not
    after the next one. *)
Definition sportLe (localeCompare : string -> string -> Z) (a b : Card.t) : Prop :=
  compareCards localeCompare a b <= 0.

(** The cards whose sport label is [s], in the order of the list. *)
Definition withSport (s : string) (cards : list Card.t) : list Card.t :=
  List.filter (fun c => String.eqb (Card.sport c) s) cards.

(** * Further parts of the pipeline *)

(** ** RuleIndex: what a rules table yields *)

(** The parts of one row of the rules table, as the row loop of
    [loadH2HSportsMapping] reads them. *)
Definition rowFlagged (h2hColIdx : nat) (row : list string) : bool :=
  String.eqb (toLowerCase (trim (cell row h2hColIdx))) "yes".

Definition rowSports (sportsColIdx : nat) (row : list string) : list string :=
  let sports := trim (cell row sportsColIdx) in
  if truthy sports
  then map (fun s => toUpperCase (trim s)) (splitOn isListSep sports)
  else [].

Definition rowDisciplines (disciplinesColIdx : option nat) (row : list string)
  : list string :=
  let disciplines :=
    match disciplinesColIdx with
    | Some d => trim (cell row d)
    | None => EmptyString
    end in
  if truthy disciplines
  then map (fun d => toUpperCase (trim d)) (splitOn isListSep disciplines)
  else [].

(** The keys one flagged row stands for: the cross product of its sports and
    disciplines, or the wildcard key of each sport when it names no
    discipline. *)
Definition rowKey (sportsColIdx : nat) (disciplinesColIdx : option nat)
    (row : list string) (key : string) : Prop :=
  exists sport, sport ∈ rowSports sportsColIdx row ∧
    ((rowDisciplines disciplinesColIdx row = [] ∧ key = sport +:+ "|*") ∨
     (exists discipline, discipline ∈ rowDisciplines disciplinesColIdx row ∧
                         key = h2hKey sport discipline)).

(** A table that cannot be read: the request failed, the sheet has fewer than
    two rows, or its first row names no SPORTS or no H2H column. *)
Definition unreadableTable (response : option (list (list string))) : Prop :=
  match response with
  | None => True
  | Some rows =>
      (length rows < 2)%nat ∨
      findIndex (headerIs "SPORTS") (default [] (rows !! 0%nat)) = None ∨
      findIndex (headerIs "H2H") (default [] (rows !! 0%nat)) = None
  end.

(** ** CardBuilder: scores, texts and the cards of eligible rows *)

(** A row with a gold medal, the basic fields and a time. *)
Definition rowWithGold : Row :=
  list_to_map
    [ ("MEDAL", " Gold "); ("SPORT", "Swimming"); ("EVENT", "100m Freestyle");
      ("STAGE / ROUND OF COMPETITION", "Final"); ("NAME OF ATHLETE (SGP)", "Tan");
      ("TIMING (SGP) hh:mm:ss.ms", "00:00:48.12") ].

(** ** Paginator: which cards a slide holds *)

(** The number of slides that [n] cards need at [k] cards a slide. *)
Definition slidesNeeded (n k : nat) : nat := ((n + k - 1) / k)%nat.

(** ** The batch: selection of rows, tally and slides *)

(** The test of the gold tally loop of [generateHTML] on one highlight. *)
Definition countsAsGold (highlight : Highlight.t) : bool :=
  let medals := toLowerCase (trim (orElse (Highlight.medals highlight) EmptyString)) in
  truthy medals &&
  negb (arrayIncludes ["na"; "n/a"; "none"; "no medal"; "nil"] medals) &&
  includes medals "gold".

(** The gold tally loop of [generateHTML]. *)
Definition goldCount (highlights : list Highlight.t) : Z :=
  foldl (fun count highlight => if countsAsGold highlight then count + 1 else count)
        0 highlights.

(** [date || sport || 'All Highlights'] in [generateHighlights]; a request
    field that is absent is the empty string. *)
Definition groupKeyOf (date sport : string) : string :=
  orElse date (orElse sport "All Highlights").

Section Batch.

Variable dateParse : string -> option Z.
Variable getSportIconUrl : string -> string.
Variable localeCompare : string -> string -> Z.

(** The date filter of [generateHighlights] on one row. *)
Definition rowOnDate (normalizedInputDate : string) (row : Row) : bool :=
  let rowDate :=
    trim (orElse (default EmptyString (row !! COLUMN_MAPPINGS DATE_SGP)) EmptyString) in
  if negb (truthy rowDate) then false
  else String.eqb (normalizeDate dateParse (InString rowDate)) normalizedInputDate.

(** The sport filter of [generateHighlights] on one row. *)
Definition rowOfSport (sport : string) (row : Row) : bool :=
  let rowSport :=
    trim (orElse (default EmptyString (row !! COLUMN_MAPPINGS SPORT)) EmptyString) in
  String.eqb (toLowerCase rowSport) (toLowerCase sport).

(** The rows that [generateHighlights] turns into highlights. *)
Definition selectRows (data : list Row) (date sport : string) : list Row :=
  let validRows := filterHighlightRows data in
  let validRows :=
    if truthy date then
      let normalizedInputDate := normalizeDate dateParse (InString date) in
      List.filter (rowOnDate normalizedInputDate) validRows
    else validRows in
  let validRows :=
    if truthy sport then List.filter (rowOfSport sport) validRows else validRows in
  validRows.

(** The highlights of a request, as [generateHighlights] hands them to
    [generateHTML]. *)
Definition highlightsOf (h2hMapping : gset string) (data : list Row)
    (date sport : string) : list Highlight.t :=
  map (fun row => formatHighlightData row (Some h2hMapping)) (selectRows data date sport).

End Batch.

(** ** Loading the sheet *)

(** [s.replace(/\s+/g, ' ')]: each run of whitespace becomes one space;
    [inRun] tells that the character before was whitespace. *)
Fixpoint collapseFrom (inRun : bool) (s : string) : string :=
  match s with
  | EmptyString => EmptyString
  | String c s' =>
      if isWhiteSpace c
      then if inRun then collapseFrom true s' else String " " (collapseFrom true s')
      else String c (collapseFrom false s')
  end.

(** A header cell as [loadData] reads it: [(h || '').trim().replace(/\s+/g, ' ')]. *)
Definition normalizeHeader (h : string) : string :=
  collapseFrom false (trim (orElse h EmptyString)).

(** [obj[header] = value] on a row object: assigning a string to [__proto__]
    sets no property. *)
Definition rowSet (header value : string) (obj : Row) : Row :=
  if String.eqb header "__proto__" then obj else <[header := value]> obj.

(** The object built for one data row: [obj[header] = row[idx] || ''] for each
    header in turn, from column [idx] on. *)
Fixpoint rowObjectFrom (idx : nat) (headers : list string) (row : list string)
    (obj : Row) : Row :=
  match headers with
  | [] => obj
  | header :: headers' =>
      rowObjectFrom (S idx) headers' row (rowSet header (cell row idx) obj)
  end.

(** The headers that become properties of a row object. *)
Definition ownHeaders (headers : list string) : list string :=
  List.filter (fun header => negb (String.eqb header "__proto__")) headers.

Definition rowObject (headers : list string) (row : list string) : Row :=
  rowObjectFrom 0 headers row ∅.

Definition DATA_START_ROW : nat := 8.

(** [loadData] on the values the sheet request returned: the headers and the
    data rows, or [None] when it throws (a [startRow] of 0 reads the row
    before the first). *)
Definition loadData (rows : list (list string)) (startRow : nat)
  : option (list string * list Row) :=
  if Nat.ltb (length rows) startRow then Some ([], [])
  else
    match startRow with
    | O => None
    | S before =>
        match rows !! before with
        | None => None
        | Some headerRow =>
            let headers := map normalizeHeader headerRow in
            Some (headers, map (rowObject headers) (drop startRow rows))
        end
    end.

(** ** Sport icons *)

(** A plain object with string values, as the list of its own properties in
    the order they were first assigned. *)
Abbreviation JsObject := (list (string * string)).

Fixpoint objUpdate (key value : string) (obj : JsObject) : JsObject :=
  match obj with
  | [] => [(key, value)]
  | (k, v) :: obj' =>
      if String.eqb k key then (k, value) :: obj' else (k, v) :: objUpdate key value obj'
  end.

(** [obj[key] = value] with a string value: a new key goes last, a key that
    is there keeps its place, and assigning to [__proto__] sets no property. *)
Definition objSet (key value : string) (obj : JsObject) : JsObject :=
  if String.eqb key "__proto__" then obj else objUpdate key value obj.

(** The property names every object inherits from [Object.prototype]. *)
Definition objectPrototypeKeys : list string :=
  [ "constructor"; "__proto__"; "hasOwnProperty"; "isPrototypeOf";
    "propertyIsEnumerable"; "toLocaleString"; "toString"; "valueOf";
    "__defineGetter__"; "__defineSetter__"; "__lookupGetter__"; "__lookupSetter__" ].

(** What [obj[key]] reads on an object created by [{}]: an own string, an
    inherited member (a function or the prototype, never a string), or
    [undefined]. *)
Inductive PropertyValue :=
  | OwnValue (value : string)
  | Inherited
  | Undefined.

Definition objGet (key : string) (obj : JsObject) : PropertyValue :=
  match List.find (fun e => String.eqb (fst e) key) obj with
  | Some e => OwnValue (snd e)
  | None => if arrayIncludes objectPrototypeKeys key then Inherited else Undefined
  end.

(** Is the value read by [obj[key]] truthy?  Inherited members are functions
    or the prototype object. *)
Definition truthyValue (v : PropertyValue) : bool :=
  match v with
  | OwnValue value => truthy value
  | Inherited => true
  | Undefined => false
  end.

(** An array index: the canonical decimal text of an integer below
    [2^32 - 1]. *)
Definition arrayIndex (key : string) : option Z :=
  match digitsPrefix None key with
  | Some n =>
      if String.eqb (numToString n) key && (n <=? 4294967294) then Some n else None
  | None => None
  end.

Definition isArrayIndex (key : string) : bool :=
  match arrayIndex key with Some _ => true | None => false end.

Definition compareIndex (a b : string * string) : Z :=
  default 0 (arrayIndex (fst a)) - default 0 (arrayIndex (fst b)).

(** [Object.entries(obj)]: the properties named by an array index in
    ascending order of the index, then the others in the order they were
    first assigned. *)
Definition objectEntries (obj : JsObject) : JsObject :=
  sortStable compareIndex (List.filter (fun e => isArrayIndex (fst e)) obj) ++
  List.filter (fun e => negb (isArrayIndex (fst e))) obj.

(** The other spellings that [loadSportIconMapping] files under the icon of
    [sport], in the order of its assignments. *)
Definition iconVariations (sport : string) : list string :=
  (if String.eqb sport "batminton" then ["badminton"] else []) ++
  (if String.eqb sport "aquatic sports" then ["swimming"; "aquatics"] else []) ++
  (if String.eqb sport "flying discs" then ["flying disc"] else []) ++
  (if String.eqb sport "jui-jitsu" then ["ju-jitsu"; "jiu-jitsu"] else []) ++
  (if String.eqb sport "mixed martail arts" then ["mixed martial arts"] else []) ++
  (if String.eqb sport "esports" then ["e-sports"] else []) ++
  (if String.eqb sport "canoeing" then ["canoe and rowing"; "canoe"; "rowing"] else []) ++
  (if String.eqb sport "exstream sports" then ["extreme"; "exstream sports"] else []) ++
  (if String.eqb sport "kabaddy" then ["kabaddi"; "kabaddy"] else []) ++
  (if String.eqb sport "sepak takraw"
   then ["sepatakraw"; "sepak takraw"; "sepatakraw"; "sepatakraw"] else []).

(** The body of [mapping.forEach] in [loadSportIconMapping], for the item
    [(sport, fileName)] of the mapping file. *)
Definition addIconItem (sportIconMapping : JsObject) (item : string * string)
  : JsObject :=
  let sport := toLowerCase (fst item) in
  let fileName := snd item in
  foldl (fun obj key => objSet key ("sports/" +:+ fileName) obj)
        (objSet sport ("sports/" +:+ fileName) sportIconMapping)
        (iconVariations sport).

(** [loadSportIconMapping]: [sportIconMapping] is the module-level cache
    before the call and [file] the items [(sport, fileName)] of
    sports-icons-mapping.json, each with its two string fields, [None] when
    the file is absent or is not JSON. *)
Definition loadSportIconMapping (sportIconMapping : option JsObject)
    (file : option (list (string * string))) : JsObject :=
  match sportIconMapping with
  | Some cached => cached
  | None =>
      match file with
      | Some mapping => foldl addIconItem [] mapping
      | None => []
      end
  end.

(** [s.split(/\s+/)]; [inRun] tells that the character before was
    whitespace. *)
Fixpoint splitRunsFrom (inRun : bool) (s : string) : list string :=
  match s with
  | EmptyString => [EmptyString]
  | String c s' =>
      if isWhiteSpace c
      then if inRun then splitRunsFrom true s'
           else EmptyString :: splitRunsFrom true s'
      else match splitRunsFrom false s' with
           | seg :: segs => String c seg :: segs
           | [] => [String c EmptyString]
           end
  end.

Definition splitWords (s : string) : list string := splitRunsFrom false s.

(** [s.replace(/\s+/g, sub)]. *)
Fixpoint replaceRunsFrom (sub : string) (inRun : bool) (s : string) : string :=
  match s with
  | EmptyString => EmptyString
  | String c s' =>
      if isWhiteSpace c
      then if inRun then replaceRunsFrom sub true s'
           else sub +:+ replaceRunsFrom sub true s'
      else String c (replaceRunsFrom sub false s')
  end.

Definition replaceWhitespace (sub : string) (s : string) : string :=
  replaceRunsFrom sub false s.

Definition hexDigit (n : nat) : ascii :=
  if Nat.ltb n 10 then ascii_of_nat (48 + n) else ascii_of_nat (55 + n).

(** The characters [encodeURIComponent] leaves as they are. *)
Definition isUriUnreserved (c : ascii) : bool :=
  let n := nat_of_ascii c in
  (Nat.leb 65 n && Nat.leb n 90) || (Nat.leb 97 n && Nat.leb n 122) || isDigit c ||
  existsb (Ascii.eqb c) ["-"; "_"; "."; "!"; "~"; "*"; "'"; "("; ")"]%char.

(** [encodeURIComponent] on a string of ASCII characters. *)
Fixpoint encodeURIComponent (s : string) : string :=
  match s with
  | EmptyString => EmptyString
  | String c s' =>
      if isUriUnreserved c then String c (encodeURIComponent s')
      else String "%" (String (hexDigit (nat_of_ascii c / 16))
                         (String (hexDigit (nat_of_ascii c mod 16))
                            (encodeURIComponent s')))
  end.

(** The three tests of the loop of [getSportIconUrl] on one key of the
    mapping. *)
Definition iconKeyMatches (sportKey key : string) : bool :=
  (includes sportKey key || includes key sportKey) ||
  (let sportWords := splitWords sportKey in
   let keyWords := splitWords key in
   existsb (fun w => arrayIncludes keyWords w) sportWords ||
   existsb (fun w => arrayIncludes sportWords w) keyWords) ||
  (let sportNoSpace := replaceWhitespace EmptyString sportKey in
   let keyNoSpace := replaceWhitespace EmptyString key in
   String.eqb sportNoSpace keyNoSpace || includes sportNoSpace keyNoSpace ||
   includes keyNoSpace sportNoSpace).

Definition iconUrlBase : string :=
  "https://storage.googleapis.com/seagames-2025.firebasestorage.app/content/".

(** [getSportIconUrl] over the loaded [mapping]; [fileExists] is
    [fs.existsSync] on a file name under the local icons directory.  [None]:
    the value returned is not a string but an inherited member of the
    mapping object. *)
Definition getSportIconUrl (mapping : JsObject) (fileExists : string -> bool)
    (sportName : string) : option string :=
  if negb (truthy sportName) then Some EmptyString
  else
    let sportKey := toLowerCase (trim sportName) in
    if truthyValue (objGet sportKey mapping)
    then match objGet sportKey mapping with
         | OwnValue iconPath => Some iconPath
         | _ => None
         end
    else
        match List.find (fun e => iconKeyMatches sportKey (fst e))
                        (objectEntries mapping) with
        | Some e => Some (snd e)
        | None =>
            let variations :=
              [ "Icon_" +:+ replaceWhitespace "_" (trim sportName) +:+ ".png";
                "Icon_" +:+ replaceWhitespace " " (trim sportName) +:+ ".png";
                "Icon_" +:+ trim sportName +:+ ".png" ] in
            match List.find fileExists variations with
            | Some fileName => Some ("sports/" +:+ fileName)
            | None =>
                let sportUpper := toUpperCase (trim sportName) in
                let folderName := "SPORTS-" +:+ replaceWhitespace "-" sportUpper in
                let iconFileName :=
                  "Icon_" +:+ encodeURIComponent (trim sportName) +:+ ".png" in
                Some (iconUrlBase +:+ folderName +:+ "/" +:+ iconFileName)
            end
        end.

(** What the mapping object keeps: one property a key, and every value a
    path under sports/. *)
Definition iconMappingOk (obj : JsObject) : Prop :=
  NoDup (map fst obj) ∧
  Forall (fun e => startsWith "sports/" (snd e) = true) obj.

(** ** Calendar dates *)

Definition isLeapYear (y : Z) : bool :=
  (y mod 4 =? 0) && (negb (y mod 100 =? 0) || (y mod 400 =? 0)).

(** The length of month [m] (1..12) of year [y] in the Gregorian calendar. *)
Definition daysInMonth (y m : Z) : Z :=
  if m =? 2 then (if isLeapYear y then 29 else 28)
  else if (m =? 4) || (m =? 6) || (m =? 9) || (m =? 11) then 30 else 31.

(** The text [normalizeDate] gives for a calendar date. *)
Definition isoDate (y m d : Z) : string :=
  numToString y +:+ "-" +:+ padStart2 m +:+ "-" +:+ padStart2 d.

(** The intermediate values of [civilFromDays]: the 400-year era of a day
    number, the day of the era, the year of the era and the month counted
    from March. *)
Definition eraOf (z : Z) : Z := (z + 719468) / 146097.
Definition doeOf (z : Z) : Z := z + 719468 - eraOf z * 146097.
Definition yearDays (doe : Z) : Z := doe - doe / 1460 + doe / 36524 - doe / 146096.
Definition yoeOf (z : Z) : Z := yearDays (doeOf z) / 365.
Definition doyOf (z : Z) : Z :=
  doeOf z - (365 * yoeOf z + yoeOf z / 4 - yoeOf z / 100).
Definition mpOf (z : Z) : Z := (5 * doyOf z + 2) / 153.

Definition zrange (lo : Z) (n : nat) : list Z :=
  map (fun i => lo + Z.of_nat i) (seq 0 n).

(** One month of the 400-year cycle: its first day number gives the first of
    the month back, its last day number lies in the same era, year and month,
    and its days stay in the range of time values when moved by 688 cycles,
    and by 689 for the first 160 years of the cycle. *)
Definition monthOk (y m : Z) : bool :=
  let z1 := daysFromCivil y m 1 in
  let z2 := z1 + daysInMonth y m - 1 in
  let '(y', m', d') := civilFromDays z1 in
  (y' =? y) && (m' =? m) && (d' =? 1) &&
  (eraOf z1 =? eraOf z2) && (yoeOf z1 =? yoeOf z2) && (mpOf z1 =? mpOf z2) &&
  (-100000000 <=? z1) && (z2 + 146097 * 688 <=? 100000000) &&
  ((160 <=? y) || (z2 + 146097 * 689 <=? 100000000)).

(** The full year [new Date(year, ...)] takes for a year number. *)
Definition fullYear (y : Z) : Z :=
  if (0 <=? y) && (y <=? 99) then 1900 + y else y.

(** No character of [p] is a date separator. *)
Definition noDateSep (p : string) : bool :=
  allChars (fun c => negb (isDateSep c)) p.

(** ** The title of the deck *)

Definition months : list string :=
  [ "January"; "February"; "March"; "April"; "May"; "June";
    "July"; "August"; "September"; "October"; "November"; "December" ].

(** [months[i]] in a template literal: a missing entry reads [undefined]. *)
Definition monthName (i : Z) : string :=
  if i <? 0 then "undefined" else default "undefined" (months !! Z.to_nat i).

(** The [sectionTitle] of [generateHTML] for [groupKey]; [dateParse] is the
    host's [new Date(string)], [None] being an Invalid Date, whose calendar
    fields all read [NaN]. *)
Definition generateHTML_sectionTitle (dateParse : string -> option Z)
    (groupKey : string) : string :=
  let formattedDate :=
    if truthy groupKey && isIsoDate groupKey then
      match dateParse (groupKey +:+ "T00:00:00") with
      | Some t =>
          let '(year, month, day) := civilFromDays (t / msPerDay) in
          numToString day +:+ " " +:+ monthName (month - 1) +:+ " " +:+ numToString year
      | None => "NaN undefined NaN"
      end
    else groupKey in
  if truthy formattedDate
  then "GOLD MEDALS FOR " +:+ toUpperCase formattedDate
  else "GOLD MEDALS FOR THE DAY".

(** * Properties *)

(** ** Facts about the string primitives *)

Ltac case_decides :=
  repeat match goal with
         | |- context [decide ?P] => destruct (decide P) as [?|?]
         end.

Lemma orElse_empty (s : string) : orElse s EmptyString = s.
Proof. by destruct s. Qed.

Lemma truthy_false (s : string) : truthy s = false <-> s = EmptyString.
Proof. destruct s; simpl; split; congruence. Qed.

Lemma trimStart_length (s : string) :
  (String.length (trimStart s) <= String.length s)%nat.
Proof.
  induction s as [|c s IH]; simpl; [lia|].
  destruct (isWhiteSpace c); simpl; lia.
Qed.

Lemma trimStart_idem (s : string) : trimStart (trimStart s) = trimStart s.
Proof.
  induction s as [|c s IH]; simpl; [done|].
  destruct (isWhiteSpace c) eqn:E; [done|]. simpl. by rewrite E.
Qed.

Lemma trimEnd_idem (s : string) : trimEnd (trimEnd s) = trimEnd s.
Proof.
  induction s as [|c s IH]; simpl; [done|].
  destruct (trimEnd s) as [|a r] eqn:E.
  - destruct (isWhiteSpace c) eqn:W; simpl; [done|]. by rewrite W.
  - change (trimEnd (String c (String a r)))
      with (match trimEnd (String a r) with
            | EmptyString => if isWhiteSpace c then EmptyString else String c EmptyString
            | r0 => String c r0
            end).
    by rewrite IH.
Qed.

(** A string without leading whitespace keeps its first character when its
    end is trimmed. *)
Lemma trimStart_trimEnd (t : string) :
  trimStart t = t -> trimStart (trimEnd t) = trimEnd t.
Proof.
  destruct t as [|c t]; [done|]. simpl.
  destruct (isWhiteSpace c) eqn:W.
  - intros E. pose proof (trimStart_length t) as L.
    rewrite E in L. simpl in L. lia.
  - intros _. destruct (trimEnd t); simpl; by rewrite W.
Qed.

Lemma trim_idem (s : string) : trim (trim s) = trim s.
Proof.
  unfold trim.
  rewrite (trimStart_trimEnd (trimStart s)) by apply trimStart_idem.
  apply trimEnd_idem.
Qed.

Lemma has_decide (m : gset string) (k : string) :
  has m k = if decide (k ∈ m) then true else false.
Proof. unfold has. by case_bool_decide; case_decide. Qed.

(** ** RuleIndex *)

(** The decision of [isH2HSport], rule by rule. *)
Lemma isH2HSport_decide (sport discipline : string) (mapping : gset string) :
  isH2HSport sport discipline (Some mapping) =
    if decide (h2hKey (toUpperCase (trim sport)) (toUpperCase (trim discipline)) ∈ mapping)
    then true
    else if decide (h2hKey (toUpperCase (trim sport)) "*" ∈ mapping) then true
    else if decide (toUpperCase (trim discipline) = EmptyString ∧
                    h2hKey (toUpperCase (trim sport)) EmptyString ∈ mapping)
    then true
    else false.
Proof.
  unfold isH2HSport. rewrite !orElse_empty.
  set (S := toUpperCase (trim sport)). set (D := toUpperCase (trim discipline)).
  change (S +:+ "|" +:+ D) with (h2hKey S D).
  change (S +:+ "|*") with (h2hKey S "*").
  change (S +:+ "|") with (h2hKey S EmptyString).
  destruct (Nat.eqb (size mapping) 0) eqn:Hsz.
  - assert (mapping = ∅) as ->.
    { apply leibniz_equiv. apply size_empty_iff. by apply Nat.eqb_eq. }
    case_decides; try done.
    match goal with H : _ ∧ _ ∈ ∅ |- _ => destruct H as [_ Hin] end.
    by apply not_elem_of_empty in Hin.
  - rewrite !has_decide.
    destruct (truthy D) eqn:HD; cbn [andb negb].
    + case_decides; try done.
      match goal with H : _ ∧ _ |- _ => destruct H as [E _] end.
      by rewrite E in HD.
    + apply truthy_false in HD. rewrite HD.
      case_decides; try done.
      match goal with H : _ ∧ _ |- _ => destruct H as [_ Hin] end.
      done.
Qed.

Lemma foldl_grows {A : Type} (f : gset string -> A -> gset string) (l : list A) :
  (forall acc x, acc ⊆ f acc x) -> forall acc, acc ⊆ foldl f acc l.
Proof.
  intros Hf. induction l as [|x l IH]; intros acc; simpl; [done|].
  etrans; [apply (Hf acc x)|apply IH].
Qed.

(** A row of the rules table only ever adds keys. *)
Lemma addRowCombinations_grows si di hi (acc : gset string) (row : list string) :
  acc ⊆ addRowCombinations si di hi acc row.
Proof.
  unfold addRowCombinations.
  repeat match goal with |- context [if ?b then _ else _] => destruct b end;
    try done;
    apply foldl_grows; intros a x;
    first [ apply foldl_grows; intros a' y; set_solver | set_solver ].
Qed.

(** A flagged row naming the sport Judo and no discipline adds the wildcard
    key of Judo. *)
Lemma addRowCombinations_judo si di hi (acc : gset string) (row : list string) :
  cell row si = "Judo" -> cell row hi = "yes" ->
  match di with Some d => cell row d = EmptyString | None => True end ->
  "JUDO|*" ∈ addRowCombinations si di hi acc row.
Proof.
  intros Hs Hh Hd. unfold addRowCombinations. rewrite Hs, Hh.
  assert (match di with Some d => trim (cell row d) | None => EmptyString end
          = EmptyString) as ->.
  { destruct di as [d|]; [by rewrite Hd|done]. }
  change (toLowerCase (trim "yes")) with "yes".
  change (trim "Judo") with "Judo".
  cbn [String.eqb Ascii.eqb Bool.eqb truthy splitOn isListSep map length Nat.ltb Nat.leb foldl].
  change (toUpperCase (trim "Judo") +:+ "|*") with "JUDO|*".
  set_solver.
Qed.

Lemma loadH2HSportsMapping_judo (headers : list string) (dataRows : list (list string))
    (si hi : nat) (row : list string) :
  findIndex (headerIs "SPORTS") headers = Some si ->
  findIndex (headerIs "H2H") headers = Some hi ->
  row ∈ dataRows ->
  cell row si = "Judo" -> cell row hi = "yes" ->
  match findIndex (headerIs "DISCIPLINES") headers with
  | Some d => cell row d = EmptyString
  | None => True
  end ->
  "JUDO|*" ∈ loadH2HSportsMapping None (Some (headers :: dataRows)).
Proof.
  intros Hsi Hhi Hin Hs Hh Hd. unfold loadH2HSportsMapping.
  apply list_elem_of_split in Hin as (l1 & l2 & ->).
  replace (Nat.ltb (length (headers :: l1 ++ row :: l2)) 2) with false.
  2:{ symmetry. apply Nat.ltb_ge. simpl. rewrite length_app. simpl. lia. }
  cbn [lookup list_lookup default skipn id]. rewrite Hsi, Hhi.
  rewrite drop_0, foldl_app. cbn [foldl].
  eapply foldl_grows; [intros; apply addRowCombinations_grows|].
  by apply addRowCombinations_judo.
Qed.

(** C1. [isH2HSport] classifies by precedence over the trimmed, upper-cased
    sport and discipline: head-to-head when the exact key is in the mapping,
    else when the wildcard key of the sport is, else when the discipline is
    empty and the empty-discipline key is, else individual; without a mapping
    every record is individual.  A rules table with a flagged row for Judo and
    no discipline yields the wildcard key, so Judo/Team and Judo/Kata are both
    head-to-head. *)
Theorem isH2HSport_precedence :
  (forall (sport discipline : string) (mapping : gset string),
     let S := toUpperCase (trim sport) in
     let D := toUpperCase (trim discipline) in
     isH2HSport sport discipline (Some mapping) =
       if decide (h2hKey S D ∈ mapping) then true
       else if decide (h2hKey S "*" ∈ mapping) then true
       else if decide (D = EmptyString ∧ h2hKey S EmptyString ∈ mapping) then true
       else false) ∧
  (forall sport discipline : string, isH2HSport sport discipline None = false) ∧
  (forall (headers : list string) (dataRows : list (list string)) (si hi : nat)
          (row : list string),
     findIndex (headerIs "SPORTS") headers = Some si ->
     findIndex (headerIs "H2H") headers = Some hi ->
     row ∈ dataRows ->
     cell row si = "Judo" -> cell row hi = "yes" ->
     match findIndex (headerIs "DISCIPLINES") headers with
     | Some d => cell row d = EmptyString
     | None => True
     end ->
     let mapping := loadH2HSportsMapping None (Some (headers :: dataRows)) in
     "JUDO|*" ∈ mapping ∧
     isH2HSport "Judo" "Team" (Some mapping) = true ∧
     isH2HSport "Judo" "Kata" (Some mapping) = true).
Proof.
  split; [|split].
  - intros sport discipline mapping. apply isH2HSport_decide.
  - done.
  - intros headers dataRows si hi row Hsi Hhi Hin Hs Hh Hd mapping.
    assert ("JUDO|*" ∈ mapping) as Hw
      by (eapply loadH2HSportsMapping_judo; eauto).
    split; [done|].
    split; rewrite isH2HSport_decide;
      change (h2hKey (toUpperCase (trim "Judo")) "*") with "JUDO|*";
      case_decides; done.
Qed.

(** The rules table of the example: one flagged row for Judo. *)
Lemma isH2HSport_precedence_witness :
  let mapping :=
    loadH2HSportsMapping None
      (Some [["Sports"; "Disciplines"; "H2H"]; ["Judo"; ""; "yes"]]) in
  "JUDO|*" ∈ mapping ∧
  isH2HSport "Judo" "Team" (Some mapping) = true ∧
  isH2HSport "Judo" "Kata" (Some mapping) = true.
Proof.
  apply (proj2 (proj2 isH2HSport_precedence)
           ["Sports"; "Disciplines"; "H2H"] [["Judo"; ""; "yes"]] 0%nat 2%nat
           ["Judo"; ""; "yes"]).
  - reflexivity.
  - reflexivity.
  - apply list_elem_of_here.
  - reflexivity.
  - reflexivity.
  - reflexivity.
Defined.

(** ** RowFilter *)

Lemma getCol_trimmed (row : Row) (key : ColumnKey) :
  trim (getCol row key) = getCol row key.
Proof. unfold getCol. apply trim_idem. Qed.

(** The test of the loop is the eligibility rule. *)
Lemma keepsRow_isEligible (row : Row) : keepsRow row = isEligible row.
Proof.
  unfold keepsRow, isEligible, isNullMarker, nullMarkers.
  rewrite orElse_empty, getCol_trimmed.
  destruct (getCol row MEDALS) as [|c medal] eqn:Hmedal.
  { reflexivity. }
  cbn [truthy andb].
  destruct (arrayIncludes _ _), (includes _ _); cbn [negb andb]; try reflexivity.
  all: destruct (hasValue row COMPETITOR_NAME), (hasValue row COMPETITOR_COUNTRY);
    cbn [andb]; reflexivity.
Qed.

Lemma filter_loop (data : list Row) (validRows : list Row) :
  foldl (fun validRows row => if keepsRow row then validRows ++ [row] else validRows)
        validRows data
  = validRows ++ List.filter isEligible data.
Proof.
  revert validRows. induction data as [|row data IH]; intros validRows; simpl.
  - by rewrite app_nil_r.
  - rewrite IH, keepsRow_isEligible.
    destruct (isEligible row); [by rewrite <- app_assoc|done].
Qed.

Lemma filterHighlightRows_filter (data : list Row) :
  filterHighlightRows data = List.filter isEligible data.
Proof. unfold filterHighlightRows. by rewrite filter_loop. Qed.



(** ** Elapsed-time normalisation *)

Lemma dropWhile_head {A : Type} (p : A -> bool) (l : list A) (x : A) :
  head (dropWhile p l) = Some x -> p x = false.
Proof.
  induction l as [|y l IH]; simpl; [done|].
  destruct (p y) eqn:E; [done|]. simpl. congruence.
Qed.



Lemma secondsChar_plain (c : ascii) :
  isDigit c || Ascii.eqb c "." = true -> isColon c = false ∧ isWhiteSpace c = false.
Proof.
  destruct c as [[] [] [] [] [] [] [] []]; vm_compute; intros H;
    first [ discriminate H | split; reflexivity ].
Qed.

Lemma splitOn_plain (ss : string) :
  isSecondsText ss = true -> splitOn isColon ss = [ss].
Proof.
  induction ss as [|c ss IH]; [done|]. unfold isSecondsText. cbn [allChars splitOn].
  intros [Hc Hs]%andb_prop. apply secondsChar_plain in Hc as [-> _].
  by rewrite (IH Hs).
Qed.

Lemma trimEnd_plain (ss : string) :
  isSecondsText ss = true -> trimEnd ss = ss.
Proof.
  induction ss as [|c ss IH]; [done|]. unfold isSecondsText. cbn [allChars trimEnd].
  intros [Hc Hs]%andb_prop. apply secondsChar_plain in Hc as [_ ->].
  rewrite (IH Hs). by destruct ss.
Qed.

Lemma trimEnd_cons (c : ascii) (s : string) :
  isWhiteSpace c = false -> trimEnd (String c s) = String c (trimEnd s).
Proof. intros H. cbn [trimEnd]. rewrite H. by destruct (trimEnd s). Qed.

(** C4. With hour part 00 and minute part 00, [formatTiming] returns the
    seconds part as it stands. *)
Theorem formatTiming_zero_hours_minutes (ss : string) :
  isSecondsText ss = true -> formatTiming ("00:00:" +:+ ss) = ss.
Proof.
  intros Hss. unfold formatTiming, trim.
  change ("00:00:" +:+ ss)
    with (String "0" (String "0" (String ":"
           (String "0" (String "0" (String ":" ss)))))).
  cbn [truthy negb].
  change (trimStart (String "0" ?s)) with (String "0" s).
  rewrite !trimEnd_cons by reflexivity. rewrite (trimEnd_plain _ Hss).
  cbn [splitOn]. rewrite (splitOn_plain _ Hss).
  reflexivity.
Qed.

Lemma formatTiming_zero_hours_minutes_witness :
  formatTiming "00:00:12.40" = "12.40".
Proof. apply (formatTiming_zero_hours_minutes "12.40"). reflexivity. Defined.

(** ** Paginator *)

Section Chunks.
Context {A : Type}.
Implicit Types (cards : list A) (slides : list (list A)).

Lemma chunkLoop_lt cards k pos i slides :
  (i < length cards)%nat ->
  chunkLoop cards k pos i slides
  = chunkLoop cards k pos (i + k) (slides ++ [slice cards i (i + k)]).
Proof.
  intros Hi. rewrite chunkLoop_equation_1.
  destruct (decide (i < length cards)%nat); [reflexivity|lia].
Qed.

Lemma chunkLoop_ge cards k pos i slides :
  (length cards <= i)%nat -> chunkLoop cards k pos i slides = slides.
Proof.
  intros Hi. rewrite chunkLoop_equation_1.
  destruct (decide (i < length cards)%nat); [lia|reflexivity].
Qed.

Lemma slice_length cards i k :
  length (slice cards i (i + k)) = (k `min` (length cards - i))%nat.
Proof.
  unfold slice. rewrite length_take, length_drop. f_equal. lia.
Qed.

Lemma slice_drop cards i k :
  slice cards i (i + k) ++ drop (i + k) cards = drop i cards.
Proof.
  unfold slice. replace (i + k - i)%nat with k by lia.
  rewrite <- drop_drop. apply take_drop.
Qed.

(** The loop appends to [slides] the cards from position [i] on, in order. *)
Lemma chunkLoop_concat cards k pos i slides :
  concat (chunkLoop cards k pos i slides) = concat slides ++ drop i cards.
Proof.
  funelim (chunkLoop cards k pos i slides).
  - rewrite H. rewrite concat_app. cbn [concat]. rewrite app_nil_r, <- app_assoc.
    by rewrite slice_drop.
  - rewrite drop_ge by lia. by rewrite app_nil_r.
Qed.

Lemma chunkLoop_bounded cards k pos i slides :
  Forall (fun slide => (length slide <= k)%nat) slides ->
  Forall (fun slide => (length slide <= k)%nat) (chunkLoop cards k pos i slides).
Proof.
  funelim (chunkLoop cards k pos i slides); intros Hs; [|done].
  apply H. apply Forall_app. split; [done|].
  apply Forall_singleton. rewrite slice_length. lia.
Qed.

Lemma chunkCards_9 cards :
  exists pos, chunkCards cards 9 =
    let slides := chunkLoop cards 9 pos 0 [] in
    if Nat.ltb 0 (length slides) then slides else [[]].
Proof.
  unfold chunkCards. destruct (decide (0 < Z.to_nat 9)%nat) as [pos|n].
  - by exists pos.
  - exfalso. apply n. cbv. lia.
Qed.

End Chunks.

(** C6. [chunkCards cards 9] cuts the cards into consecutive slides of at
    most nine, in order: the slides put end to end are the cards.  No cards
    give one empty slide, and nineteen cards give slides of 9, 9 and 1. *)
Theorem chunkCards_partitions :
  (forall (A : Type) (cards : list A), concat (chunkCards cards 9) = cards) ∧
  (forall (A : Type) (cards : list A),
     Forall (fun slide => (length slide <= 9)%nat) (chunkCards cards 9)) ∧
  (forall A : Type, chunkCards (@nil A) 9 = [[]]) ∧
  (forall (A : Type) (cards : list A),
     length cards = 19%nat -> map length (chunkCards cards 9) = [9; 9; 1]%nat).
Proof.
  split; [|split; [|split]].
  - intros A cards. destruct (chunkCards_9 cards) as [pos ->]. cbv zeta.
    destruct (Nat.ltb 0 _) eqn:E.
    + by rewrite chunkLoop_concat, drop_0.
    + apply Nat.ltb_ge in E.
      pose proof (chunkLoop_concat cards _ pos 0 []) as Hc.
      destruct (chunkLoop cards 9 pos 0 []); [|simpl in E; lia].
      rewrite drop_0 in Hc. simpl in Hc. by rewrite <- Hc.
  - intros A cards. destruct (chunkCards_9 cards) as [pos ->]. cbv zeta.
    destruct (Nat.ltb 0 _).
    + by apply chunkLoop_bounded.
    + apply Forall_singleton. simpl. lia.
  - intros A. destruct (chunkCards_9 (@nil A)) as [pos ->]. cbv zeta.
    by rewrite chunkLoop_ge.
  - intros A cards Hlen. destruct (chunkCards_9 cards) as [pos ->]. cbv zeta.
    rewrite (chunkLoop_lt cards 9 pos 0) by lia.
    rewrite (chunkLoop_lt cards 9 pos (0 + 9)) by lia.
    rewrite (chunkLoop_lt cards 9 pos (0 + 9 + 9)) by lia.
    rewrite chunkLoop_ge by lia.
    cbn [app length Nat.ltb Nat.leb map].
    rewrite !slice_length, Hlen. reflexivity.
Qed.

Lemma chunkCards_partitions_witness :
  map length (chunkCards (replicate 19 "card") 9) = [9; 9; 1]%nat.
Proof.
  apply (proj2 (proj2 (proj2 chunkCards_partitions)) string (replicate 19 "card")).
  reflexivity.
Defined.

(** ** CardBuilder *)

Lemma arrayIncludes_three_of_five (x : string) :
  arrayIncludes ["na"; "n/a"; "none"; "no medal"; "nil"] x = false ->
  arrayIncludes ["na"; "n/a"; "none"] x = false.
Proof.
  unfold arrayIncludes. cbn [existsb].
  destruct (String.eqb x "na"), (String.eqb x "n/a"), (String.eqb x "none"); done.
Qed.

(** A medal label is empty or a string that is no null-marker. *)
Lemma normalizeMedal_label (medalValue : string) :
  let label := fst (normalizeMedal medalValue) in
  label = EmptyString ∨
  (truthy label = true ∧
   arrayIncludes ["na"; "n/a"; "none"; "no medal"; "nil"] (toLowerCase label) = false).
Proof.
  unfold normalizeMedal.
  destruct (truthy medalValue); cbn [negb]; [|by left].
  destruct (truthy (toLowerCase (trim medalValue))) eqn:Ht; cbn [negb orb]; [|by left].
  destruct (arrayIncludes _ (toLowerCase (trim medalValue))) eqn:Hn; [by left|].
  assert (truthy (trim medalValue) = true) as Htrim.
  { destruct (trim medalValue); [discriminate Ht|done]. }
  repeat match goal with |- context [if ?b then _ else _] => destruct b end;
    cbn [fst]; auto.
Qed.

Lemma formatHighlightData_trimmed (row : Row) (h2hMapping : option (gset string)) :
  trimmedRecord (formatHighlightData row h2hMapping).
Proof.
  unfold trimmedRecord, formatHighlightData. cbn.
  repeat split; try apply getCol_trimmed.
  - unfold orElse. destruct (truthy _); apply getCol_trimmed.
  - unfold orElse. destruct (truthy _); [apply getCol_trimmed|reflexivity].
Qed.

Lemma trimmed_nonempty (s : string) :
  trim s = s -> truthy s = true -> trim s <> EmptyString.
Proof. intros -> H E. by rewrite E in H. Qed.

Section Cards.

Variable getSportIconUrl : string -> string.

Local Abbreviation build := (buildCardFromHighlight getSportIconUrl).

Ltac open_card :=
  unfold buildCardFromHighlight;
  repeat match goal with
         | |- context [let '(_, _) := ?p in _] => destruct p eqn:?
         end.

(** The competitors of a card: the primary one, then the opponent when the
    record is head-to-head and names an opponent or an opponent country. *)
Lemma buildCard_competitors (highlight : Highlight.t) (index : Z) :
  exists primary secondary,
    Competitor.isPrimary primary = true ∧
    Competitor.isPrimary secondary = false ∧
    Competitor.name primary = trim (orElse (Highlight.athleteName highlight) "Athlete Name") ∧
    Competitor.country primary = trim (orElse (Highlight.countrySgp highlight) "SGP") ∧
    Competitor.name secondary
      = orElse (trim (Highlight.competitorName highlight)) "Opponent" ∧
    Card.competitors (build highlight index) =
      if String.eqb (Highlight.type highlight) "h2h" &&
         (truthy (trim (Highlight.competitorName highlight)) ||
          truthy (trim (Highlight.competitorCountry highlight)))
      then [primary; secondary] else [primary].
Proof.
  open_card. rewrite !orElse_empty. cbn [Card.competitors].
  eexists; eexists.
  repeat match goal with |- _ ∧ _ => split end.
  6:{ destruct (String.eqb (Highlight.type highlight) "h2h"); cbn [andb].
      - destruct (truthy (trim (Highlight.competitorName highlight)) ||
                  truthy (trim (Highlight.competitorCountry highlight)));
          cbn [app]; reflexivity.
      - reflexivity. }
  all: reflexivity.
Qed.

Lemma buildCard_sport (highlight : Highlight.t) (index : Z) :
  Card.sport (build highlight index)
  = trim (orElse (Highlight.sportTeamsg highlight)
                 (trim (orElse (Highlight.sport highlight) "Sport Name"))).
Proof. open_card. reflexivity. Qed.

Lemma buildCard_resultBadge (highlight : Highlight.t) (index : Z) :
  Card.resultBadge (build highlight index)
  = let resultBadge :=
      orElse (trim (Highlight.winDrawLose highlight))
             (fst (normalizeMedal (Highlight.medals highlight))) in
    if truthy resultBadge &&
       negb (arrayIncludes ["na"; "n/a"; "none"] (toLowerCase resultBadge))
    then resultBadge else EmptyString.
Proof. open_card. rewrite !orElse_empty. reflexivity. Qed.


(** C9. A card lists its primary competitor first and at most one opponent
    after it; the opponent is there exactly when the record is head-to-head
    and its opponent name or opponent country is not empty once trimmed, and
    so whatever the opponent score is.  On a record whose opponent fields
    carry no surrounding whitespace, as [formatHighlightData] leaves them,
    that is: exactly when the record is head-to-head and the opponent name or
    the opponent country is not the empty string. *)
Theorem card_competitors (highlight : Highlight.t) (index : Z) :
  let hasOpponent :=
    String.eqb (Highlight.type highlight) "h2h" &&
    (truthy (trim (Highlight.competitorName highlight)) ||
     truthy (trim (Highlight.competitorCountry highlight))) in
  (exists primary opponents,
     Card.competitors (build highlight index) = primary :: opponents ∧
     Competitor.isPrimary primary = true ∧
     Forall (fun c => Competitor.isPrimary c = false) opponents ∧
     length opponents = if hasOpponent then 1%nat else 0%nat) ∧
  (forall scoreCompetitor : string,
     length (Card.competitors (build (withScoreCompetitor scoreCompetitor highlight) index))
     = length (Card.competitors (build highlight index))) ∧
  (trim (Highlight.competitorName highlight) = Highlight.competitorName highlight ->
   trim (Highlight.competitorCountry highlight) = Highlight.competitorCountry highlight ->
   (length (Card.competitors (build highlight index)) = 2%nat <->
    Highlight.type highlight = "h2h" ∧
    (Highlight.competitorName highlight <> EmptyString ∨
     Highlight.competitorCountry highlight <> EmptyString))).
Proof.
  intros hasOpponent. split; [|split].
  - destruct (buildCard_competitors highlight index)
      as (primary & secondary & Hp & Hs & _ & _ & _ & Hc).
    fold hasOpponent in Hc. exists primary.
    destruct hasOpponent.
    + exists [secondary]. repeat split; try done. by apply Forall_singleton.
    + exists []. repeat split; done.
  - intros scoreCompetitor.
    destruct (buildCard_competitors highlight index)
      as (p1 & s1 & _ & _ & _ & _ & _ & ->).
    destruct (buildCard_competitors (withScoreCompetitor scoreCompetitor highlight) index)
      as (p2 & s2 & _ & _ & _ & _ & _ & ->).
    cbn [withScoreCompetitor Highlight.type Highlight.competitorName
         Highlight.competitorCountry].
    by destruct (_ && _).
  - intros Hname Hcountry.
    destruct (buildCard_competitors highlight index)
      as (primary & secondary & _ & _ & _ & _ & _ & ->).
    rewrite Hname, Hcountry.
    destruct (String.eqb (Highlight.type highlight) "h2h") eqn:Htype; cbn [andb].
    + apply String.eqb_eq in Htype.
      destruct (Highlight.competitorName highlight),
               (Highlight.competitorCountry highlight);
        cbn [truthy orb length]; split; try done; try tauto.
      all: intros _; split; [done|]; first [ by left | by right ].
    + apply String.eqb_neq in Htype. cbn [length]. split; [done|tauto].
Qed.

(** C10 (as the code has it). For a record whose guarded fields carry no
    surrounding whitespace, as [formatHighlightData] leaves them, the sport
    label, the primary athlete name and the primary country of the card are
    not empty: with no sport and no website sport label the label is Sport
    Name, an empty athlete name becomes Athlete Name, an empty country becomes
    SGP, and a head-to-head opponent with a country but no name is named
    Opponent. *)
Theorem card_placeholders (highlight : Highlight.t) (index : Z) :
  trimmedRecord highlight ->
  let card := build highlight index in
  exists primary opponents,
    Card.competitors card = primary :: opponents ∧
    Card.sport card <> EmptyString ∧
    Competitor.name primary <> EmptyString ∧
    Competitor.country primary <> EmptyString ∧
    (Highlight.sport highlight = EmptyString ->
     Highlight.sportTeamsg highlight = EmptyString ->
     Card.sport card = "Sport Name") ∧
    (Highlight.athleteName highlight = EmptyString ->
     Competitor.name primary = "Athlete Name") ∧
    (Highlight.countrySgp highlight = EmptyString ->
     Competitor.country primary = "SGP") ∧
    (Highlight.type highlight = "h2h" ->
     trim (Highlight.competitorName highlight) = EmptyString ->
     trim (Highlight.competitorCountry highlight) <> EmptyString ->
     exists opponent,
       opponents = [opponent] ∧ Competitor.name opponent = "Opponent").
Proof.
  intros (Hsport & Hteam & Hname & Hcountry) card.
  destruct (buildCard_competitors highlight index)
    as (primary & secondary & _ & _ & Hpn & Hpc & Hsn & Hc).
  fold card in Hc.
  exists primary, (List.tail (Card.competitors card)).
  assert (forall s placeholder : string,
            trim s = s -> trim placeholder = placeholder ->
            placeholder <> EmptyString ->
            trim (orElse s placeholder) <> EmptyString) as Hguard.
  { intros s ph Hs Hph Hne. unfold orElse. destruct (truthy s) eqn:Ht.
    - by apply trimmed_nonempty.
    - by rewrite Hph. }
  split; [by rewrite Hc; destruct (_ && _)|].
  split.
  { subst card. rewrite buildCard_sport. apply Hguard; try done.
    - apply trim_idem.
    - by apply Hguard. }
  split; [rewrite Hpn; by apply Hguard|].
  split; [rewrite Hpc; by apply Hguard|].
  split.
  { intros E1 E2. subst card. rewrite buildCard_sport, E1, E2. reflexivity. }
  split; [intros E; by rewrite Hpn, E|].
  split; [intros E; by rewrite Hpc, E|].
  intros Htype Hn Hctry. exists secondary.
  rewrite Hc, Htype, Hn. cbn [String.eqb Ascii.eqb Bool.eqb andb truthy orb].
  destruct (trim (Highlight.competitorCountry highlight)); [done|].
  cbn [truthy List.tail]. split; [done|]. by rewrite Hsn, Hn.
Qed.

End Cards.

Lemma card_competitors_witness :
  length (Card.competitors
            (buildCardFromHighlight noIcons
               (exampleHighlight "Judo" "Judo" "Tan" "" "Gold" "h2h") 1)) = 2%nat.
Proof.
  apply (proj2 (proj2 (card_competitors noIcons
                         (exampleHighlight "Judo" "Judo" "Tan" "" "Gold" "h2h") 1))).
  - reflexivity.
  - reflexivity.
  - split; [reflexivity|]. right. discriminate.
Defined.



Lemma card_placeholders_witness :
  exists primary opponents,
    Card.competitors
      (buildCardFromHighlight noIcons
         (exampleHighlight "" "" "" "" "Gold" "h2h") 1) = primary :: opponents ∧
    Competitor.name primary = "Athlete Name" ∧
    opponents <> [].
Proof.
  destruct (card_placeholders noIcons (exampleHighlight "" "" "" "" "Gold" "h2h") 1)
    as (primary & opponents & Hc & _ & _ & _ & _ & Hn & _ & Ho).
  { repeat split. }
  exists primary, opponents. split; [exact Hc|]. split; [by apply Hn|].
  destruct Ho as (opponent & -> & _); done.
Defined.

(** C10 (as the specification words it) fails: a sport of one space passes the guard
    and is trimmed to nothing. *)
Lemma card_blank_sport_label :
  Card.sport
    (buildCardFromHighlight noIcons
       (exampleHighlight " " " " "Tan" "" "Gold" "non-h2h") 1) = EmptyString.
Proof. reflexivity. Qed.

(** ** Global ordering *)

Lemma codeUnitCompare_refl (s : string) : codeUnitCompare s s = 0.
Proof.
  induction s as [|c s IH]; [done|]. cbn [codeUnitCompare].
  by rewrite Nat.ltb_irrefl.
Qed.

Lemma codeUnitCompare_asym (a b : string) :
  0 < codeUnitCompare a b -> codeUnitCompare b a <= 0.
Proof.
  revert b. induction a as [|x a IH]; intros [|y b]; cbn [codeUnitCompare]; try lia.
  destruct (Nat.ltb (nat_of_ascii x) (nat_of_ascii y)) eqn:Hxy; [lia|].
  destruct (Nat.ltb (nat_of_ascii y) (nat_of_ascii x)) eqn:Hyx; [lia|].
  apply IH.
Qed.

Lemma renumber_lookup (cards : list Card.t) (i : nat) :
  renumber cards !! i = Card.setIndex (Z.of_nat i + 1) <$> cards !! i.
Proof. unfold renumber. by rewrite list_lookup_imap. Qed.

Lemma renumber_length (cards : list Card.t) : length (renumber cards) = length cards.
Proof. unfold renumber. apply length_imap. Qed.

Lemma imap_setIndex_twice (f g : nat -> Z) (cards : list Card.t) :
  imap (fun i c => Card.setIndex (f i) c) (imap (fun i c => Card.setIndex (g i) c) cards)
  = imap (fun i c => Card.setIndex (f i) c) cards.
Proof.
  revert f g. induction cards as [|c cards IH]; intros f g; [done|].
  rewrite !imap_cons. f_equal. apply (IH (f ∘ S) (g ∘ S)).
Qed.

Lemma renumber_idem (cards : list Card.t) : renumber (renumber cards) = renumber cards.
Proof. unfold renumber. apply imap_setIndex_twice. Qed.

Section Ordering.

Variable getSportIconUrl : string -> string.
Variable localeCompare : string -> string -> Z.

(** What [sort] needs of a comparison function to give a defined order, as
    far as the proofs below use it. *)
Hypothesis localeCompare_refl : forall s, localeCompare s s = 0.
Hypothesis localeCompare_asym :
  forall a b, 0 < localeCompare a b -> localeCompare b a <= 0.

Local Abbreviation compare := (compareCards localeCompare).
Local Abbreviation le := (sportLe localeCompare).

Lemma insertSorted_perm (x : Card.t) (l : list Card.t) :
  Permutation (insertSorted compare x l) (x :: l).
Proof.
  induction l as [|y l IH]; cbn [insertSorted]; [done|].
  destruct (0 <? compare x y); [|done].
  rewrite IH. apply perm_swap.
Qed.

Lemma sortStable_perm (l : list Card.t) : Permutation (sortStable compare l) l.
Proof.
  induction l as [|x l IH]; cbn [sortStable]; [done|].
  rewrite insertSorted_perm. by constructor.
Qed.

Lemma insertSorted_hd (a x : Card.t) (l : list Card.t) :
  le a x -> HdRel le a l -> HdRel le a (insertSorted compare x l).
Proof.
  intros Hax Hl. destruct l as [|y l]; cbn [insertSorted]; [by constructor|].
  destruct (0 <? compare x y); constructor; [by inversion Hl|done].
Qed.

Lemma insertSorted_sorted (x : Card.t) (l : list Card.t) :
  Sorted le l -> Sorted le (insertSorted compare x l).
Proof.
  induction l as [|y l IH]; intros Hl; cbn [insertSorted].
  - by repeat constructor.
  - destruct (0 <? compare x y) eqn:E.
    + apply Z.ltb_lt in E. inversion Hl as [|? ? Hs Hh]; subst.
      constructor; [by apply IH|].
      apply insertSorted_hd; [|done].
      by apply localeCompare_asym.
    + apply Z.ltb_ge in E. constructor; [done|]. by constructor.
Qed.

Lemma sortStable_sorted (l : list Card.t) : Sorted le (sortStable compare l).
Proof.
  induction l as [|x l IH]; cbn [sortStable]; [constructor|].
  by apply insertSorted_sorted.
Qed.

(** Sorting leaves a sorted list as it is. *)
Lemma sortStable_fixed (l : list Card.t) : Sorted le l -> sortStable compare l = l.
Proof.
  induction l as [|x l IH]; intros Hl; cbn [sortStable]; [done|].
  inversion Hl as [|? ? Hs Hh]; subst. rewrite (IH Hs).
  destruct Hh as [|y l' Hxy]; cbn [insertSorted]; [done|].
  unfold sportLe in Hxy. by rewrite (proj2 (Z.ltb_ge _ _) Hxy).
Qed.

(** The sort is stable: cards of one sport label keep their order. *)
Lemma insertSorted_withSport (s : string) (x : Card.t) (l : list Card.t) :
  withSport s (insertSorted compare x l) = withSport s (x :: l).
Proof.
  induction l as [|y l IH]; cbn [insertSorted]; [done|].
  destruct (0 <? compare x y) eqn:E; [|done].
  unfold withSport in *. cbn [List.filter] in *. rewrite IH.
  destruct (String.eqb (Card.sport x) s) eqn:Hx; [|done].
  destruct (String.eqb (Card.sport y) s) eqn:Hy; [|done].
  apply String.eqb_eq in Hx, Hy. apply Z.ltb_lt in E.
  unfold compareCards in E. rewrite Hx, Hy, localeCompare_refl in E. lia.
Qed.

Lemma sortStable_withSport (s : string) (l : list Card.t) :
  withSport s (sortStable compare l) = withSport s l.
Proof.
  induction l as [|x l IH]; cbn [sortStable]; [done|].
  rewrite insertSorted_withSport. unfold withSport in *. cbn [List.filter].
  by rewrite IH.
Qed.

Lemma imap_sorted (f : nat -> Z) (l : list Card.t) :
  Sorted le l -> Sorted le (imap (fun i c => Card.setIndex (f i) c) l).
Proof.
  revert f. induction l as [|x l IH]; intros f Hl; [constructor|].
  rewrite imap_cons. inversion Hl as [|? ? Hs Hh]; subst.
  constructor; [apply (IH (f ∘ S) Hs)|].
  destruct Hh as [|y l' Hxy]; [constructor|].
  rewrite imap_cons. by constructor.
Qed.

Lemma renumber_sorted (l : list Card.t) : Sorted le l -> Sorted le (renumber l).
Proof. apply imap_sorted. Qed.


End Ordering.



(** ** Dates *)

(** C7 at a year-first date written with slashes: the three segments fall
    through to the month-first reading with the day as a two-digit year. *)
Theorem normalizeDate_year_first_slash (dateParse : string -> option Z) :
  normalizeDate dateParse (InString "2025/12/25") = "2093-09-12".
Proof. reflexivity. Qed.

(** What the other forms give: an ISO string comes back as it is, a Date
    value that is invalid gives the empty string, and so does a value that
    is neither a string nor a Date. *)
Lemma normalizeDate_iso (dateParse : string -> option Z) (s : string) :
  isIsoDate s = true -> normalizeDate dateParse (InString s) = s.
Proof.
  intros H. unfold normalizeDate. rewrite H.
  by destruct s.
Qed.

Lemma normalizeDate_not_a_date (dateParse : string -> option Z) :
  normalizeDate dateParse (InDate None) = EmptyString ∧
  normalizeDate dateParse InOther = EmptyString ∧
  normalizeDate dateParse (InString "a/b/c") = EmptyString.
Proof. repeat split. Qed.

Example normalizeDate_day_first (dateParse : string -> option Z) :
  normalizeDate dateParse (InString "25/12/2025") = "2025-12-25" ∧
  normalizeDate dateParse (InString "25-12-2025") = "2025-12-25".
Proof. split; reflexivity. Qed.

Example normalizeDate_year_first_dash (dateParse : string -> option Z) :
  normalizeDate dateParse (InString "2025-1-5") = "2073-09-01".
Proof. reflexivity. Qed.

(** * Further properties of the pipeline *)

(** ** RuleIndex: what a rules table yields *)

Lemma foldl_singletons_elem {A : Type} (f : A -> string) (l : list A)
    (acc : gset string) (k : string) :
  k ∈ foldl (fun acc x => {[ f x ]} ∪ acc) acc l <->
  k ∈ acc ∨ exists x, x ∈ l ∧ k = f x.
Proof.
  revert acc. induction l as [|x l IH]; intros acc; cbn [foldl].
  - split; [by left|]. intros [H|(x & Hx & _)]; [done|]. by apply elem_of_nil in Hx.
  - rewrite IH, elem_of_union, elem_of_singleton. split.
    + intros [[->|H]|(y & Hy & ->)].
      * right. exists x. split; [apply list_elem_of_here|done].
      * by left.
      * right. exists y. split; [by apply list_elem_of_further|done].
    + intros [H|(y & Hy & ->)]; [left; by right|].
      apply elem_of_cons in Hy as [->|Hy]; [left; by left|].
      right. by exists y.
Qed.

Lemma foldl_products_elem {A B : Type} (g : A -> B -> string) (xs : list A)
    (ys : list B) (acc : gset string) (k : string) :
  k ∈ foldl (fun acc x => foldl (fun acc' y => {[ g x y ]} ∪ acc') acc ys) acc xs <->
  k ∈ acc ∨ exists x y, x ∈ xs ∧ y ∈ ys ∧ k = g x y.
Proof.
  revert acc. induction xs as [|x xs IH]; intros acc; cbn [foldl].
  - split; [by left|]. intros [H|(x & y & Hx & _)]; [done|]. by apply elem_of_nil in Hx.
  - rewrite IH, (foldl_singletons_elem (g x)). split.
    + intros [[H|(y & Hy & ->)]|(x' & y & Hx & Hy & ->)].
      * by left.
      * right. exists x, y. split; [apply list_elem_of_here|done].
      * right. exists x', y. split; [by apply list_elem_of_further|done].
    + intros [H|(x' & y & Hx & Hy & ->)]; [left; by left|].
      apply elem_of_cons in Hx as [->|Hx].
      * left. right. by exists y.
      * right. by exists x', y.
Qed.

Lemma addRowCombinations_elem si di hi (acc : gset string) (row : list string)
    (k : string) :
  k ∈ addRowCombinations si di hi acc row <->
  k ∈ acc ∨ (rowFlagged hi row = true ∧ rowKey si di row k).
Proof.
  unfold addRowCombinations, rowKey.
  fold (rowFlagged hi row) (rowSports si row) (rowDisciplines di row).
  destruct (rowFlagged hi row); [|split; [by left|intros [H|[H _]]; done]].
  destruct (rowSports si row) as [|s0 ss] eqn:Hs; cbn [length Nat.ltb Nat.leb].
  { split; [by left|]. intros [H|[_ (s & Hin & _)]]; [done|].
    by apply elem_of_nil in Hin. }
  destruct (rowDisciplines di row) as [|d0 ds] eqn:Hd; cbn [length Nat.ltb Nat.leb].
  - rewrite (foldl_singletons_elem (fun sport => sport +:+ "|*")). split.
    + intros [H|(s & Hin & ->)]; [by left|].
      right. split; [done|]. exists s. split; [done|]. by left.
    + intros [H|[_ (s & Hin & [[_ ->]|(d & Hdin & _)])]]; [by left| |].
      * right. by exists s.
      * by apply elem_of_nil in Hdin.
  - rewrite (foldl_products_elem h2hKey). split.
    + intros [H|(s & d & Hin & Hdin & ->)]; [by left|].
      right. split; [done|]. exists s. split; [done|]. right. by exists d.
    + intros [H|[_ (s & Hin & [[E _]|(d & Hdin & ->)])]]; [by left|done|].
      right. by exists s, d.
Qed.

Lemma foldl_addRow_elem si di hi (rows : list (list string)) (acc : gset string)
    (k : string) :
  k ∈ foldl (addRowCombinations si di hi) acc rows <->
  k ∈ acc ∨ exists row, row ∈ rows ∧ rowFlagged hi row = true ∧ rowKey si di row k.
Proof.
  revert acc. induction rows as [|row rows IH]; intros acc; cbn [foldl].
  - split; [by left|]. intros [H|(r & Hr & _)]; [done|]. by apply elem_of_nil in Hr.
  - rewrite IH, addRowCombinations_elem. split.
    + intros [[H|[Hf Hk]]|(r & Hr & Hf & Hk)].
      * by left.
      * right. exists row. split; [apply list_elem_of_here|done].
      * right. exists r. split; [by apply list_elem_of_further|done].
    + intros [H|(r & Hr & Hf & Hk)]; [left; by left|].
      apply elem_of_cons in Hr as [->|Hr]; [left; by right|].
      right. by exists r.
Qed.

Lemma loadH2HSportsMapping_elem (headers : list string)
    (dataRows : list (list string)) (si hi : nat) (key : string) :
  findIndex (headerIs "SPORTS") headers = Some si ->
  findIndex (headerIs "H2H") headers = Some hi ->
  (key ∈ loadH2HSportsMapping None (Some (headers :: dataRows)) <->
   exists row, row ∈ dataRows ∧ rowFlagged hi row = true ∧
     rowKey si (findIndex (headerIs "DISCIPLINES") headers) row key).
Proof.
  intros Hsi Hhi. unfold loadH2HSportsMapping.
  destruct dataRows as [|row0 rows].
  { cbn [length Nat.ltb Nat.leb]. split; [intros H; by apply not_elem_of_empty in H|].
    intros (r & Hr & _). by apply elem_of_nil in Hr. }
  cbn [length Nat.ltb Nat.leb lookup list_lookup default id]. rewrite Hsi, Hhi, skipn_cons, drop_0.
  rewrite foldl_addRow_elem. split; [|by right].
  intros [H|H]; [by apply not_elem_of_empty in H|done].
Qed.

(** X1. The keys of the mapping are exactly those of the flagged rows below
    the header row, once the header row names the SPORTS and H2H columns: for
    each such row the cross product of its sports and disciplines, or the
    wildcard key of each of its sports when it names no discipline. *)
Theorem loadH2HSportsMapping_keys (headers : list string)
    (dataRows : list (list string)) (si hi : nat) (key : string) :
  findIndex (headerIs "SPORTS") headers = Some si ->
  findIndex (headerIs "H2H") headers = Some hi ->
  (key ∈ loadH2HSportsMapping None (Some (headers :: dataRows)) <->
   exists row, row ∈ dataRows ∧ rowFlagged hi row = true ∧
     rowKey si (findIndex (headerIs "DISCIPLINES") headers) row key).
Proof. apply loadH2HSportsMapping_elem. Qed.

Lemma loadH2HSportsMapping_keys_witness :
  "TENNIS|DOUBLES" ∈
    loadH2HSportsMapping None
      (Some [["Sports"; "Disciplines"; "H2H"];
             ["Badminton, Tennis"; "Singles
Doubles"; " YES "]]).
Proof.
  apply (loadH2HSportsMapping_keys ["Sports"; "Disciplines"; "H2H"]
           [["Badminton, Tennis"; "Singles
Doubles"; " YES "]] 0%nat 2%nat "TENNIS|DOUBLES" eq_refl eq_refl).
  eexists. split; [apply list_elem_of_here|]. split; [reflexivity|].
  exists "TENNIS". split; [vm_compute; apply list_elem_of_further, list_elem_of_here|].
  right. exists "DOUBLES".
  split; [vm_compute; apply list_elem_of_further, list_elem_of_here|reflexivity].
Defined.

(** X2. Looking up what the table lists: a record whose sport, trimmed and
    upper-cased, is among the sports of a flagged row is head-to-head when the
    row names no discipline, or when the record's discipline, trimmed and
    upper-cased, is among the row's disciplines. *)
Theorem rules_table_classifies (headers : list string)
    (dataRows : list (list string)) (si hi : nat) (row : list string)
    (sport discipline : string) :
  findIndex (headerIs "SPORTS") headers = Some si ->
  findIndex (headerIs "H2H") headers = Some hi ->
  row ∈ dataRows ->
  rowFlagged hi row = true ->
  toUpperCase (trim sport) ∈ rowSports si row ->
  rowDisciplines (findIndex (headerIs "DISCIPLINES") headers) row = [] ∨
  toUpperCase (trim discipline)
    ∈ rowDisciplines (findIndex (headerIs "DISCIPLINES") headers) row ->
  isH2HSport sport discipline
    (Some (loadH2HSportsMapping None (Some (headers :: dataRows)))) = true.
Proof.
  intros Hsi Hhi Hrow Hflag Hsport Hdisc.
  rewrite isH2HSport_decide.
  set (S := toUpperCase (trim sport)) in *.
  set (D := toUpperCase (trim discipline)) in *.
  destruct Hdisc as [Hnone|Hd].
  - assert (h2hKey S "*" ∈ loadH2HSportsMapping None (Some (headers :: dataRows))) as Hk.
    { apply (loadH2HSportsMapping_elem _ _ si hi); [done..|].
      exists row. split; [done|]. split; [done|]. exists S. split; [done|]. by left. }
    case_decides; done.
  - assert (h2hKey S D ∈ loadH2HSportsMapping None (Some (headers :: dataRows))) as Hk.
    { apply (loadH2HSportsMapping_elem _ _ si hi); [done..|].
      exists row. split; [done|]. split; [done|]. exists S. split; [done|].
      right. by exists D. }
    case_decides; done.
Qed.

Lemma rules_table_classifies_witness :
  isH2HSport " tennis" "doubles "
    (Some (loadH2HSportsMapping None
             (Some [["Sports"; "Disciplines"; "H2H"];
                    ["Badminton, Tennis"; "Singles, Doubles"; " YES "]]))) = true.
Proof.
  apply (rules_table_classifies ["Sports"; "Disciplines"; "H2H"]
           [["Badminton, Tennis"; "Singles, Doubles"; " YES "]] 0%nat 2%nat
           ["Badminton, Tennis"; "Singles, Doubles"; " YES "]).
  - reflexivity.
  - reflexivity.
  - apply list_elem_of_here.
  - reflexivity.
  - vm_compute. apply list_elem_of_further, list_elem_of_here.
  - right. vm_compute. apply list_elem_of_further, list_elem_of_here.
Defined.

Lemma isH2HSport_empty (sport discipline : string) :
  isH2HSport sport discipline (Some ∅) = false.
Proof.
  rewrite isH2HSport_decide. case_decides; try done.
  match goal with H : _ ∧ _ ∈ ∅ |- _ => destruct H as [_ Hin] end.
  by apply not_elem_of_empty in Hin.
Qed.

(** X3. The silent degrade: a table that cannot be read gives the empty
    mapping, under which every record is individual; the empty mapping is
    cached like any other, so a later call returns it whatever the sheet then
    holds. *)
Theorem loadH2HSportsMapping_degrades (response : option (list (list string))) :
  unreadableTable response ->
  loadH2HSportsMapping None response = ∅ ∧
  (forall sport discipline : string,
     isH2HSport sport discipline (Some (loadH2HSportsMapping None response)) = false) ∧
  (forall later : option (list (list string)),
     loadH2HSportsMapping (Some (loadH2HSportsMapping None response)) later = ∅).
Proof.
  intros Hbad.
  assert (loadH2HSportsMapping None response = ∅) as Hempty.
  { unfold loadH2HSportsMapping. destruct response as [rows|]; [|done].
    destruct Hbad as [Hlen|[Hs|Hh]].
    - by rewrite (proj2 (Nat.ltb_lt _ _) Hlen).
    - destruct (Nat.ltb _ _); [done|]. by rewrite Hs.
    - destruct (Nat.ltb _ _); [done|]. rewrite Hh.
      by destruct (findIndex (headerIs "SPORTS") _). }
  split; [done|]. split.
  - intros sport discipline. rewrite Hempty. apply isH2HSport_empty.
  - intros later. by rewrite Hempty.
Qed.

Lemma loadH2HSportsMapping_degrades_witness :
  isH2HSport "Judo" "Team"
    (Some (loadH2HSportsMapping None (Some [["Sport"; "H2H"]; ["Judo"; "yes"]]))) = false.
Proof.
  apply (loadH2HSportsMapping_degrades (Some [["Sport"; "H2H"]; ["Judo"; "yes"]])).
  right. left. reflexivity.
Defined.

(** ** CardBuilder: scores, texts and the cards of eligible rows *)

Lemma orElse_nonempty (a b : string) : b <> EmptyString -> orElse a b <> EmptyString.
Proof. unfold orElse. by destruct a. Qed.

Lemma orElse_truthy (a b : string) : truthy a = true -> orElse a b = a.
Proof. unfold orElse. by intros ->. Qed.

Lemma truthy_true (s : string) : truthy s = true <-> s <> EmptyString.
Proof. destruct s; simpl; split; congruence. Qed.

Lemma hasValue_truthy (row : Row) (key : ColumnKey) :
  hasValue row key = truthy (getCol row key).
Proof. unfold hasValue. by destruct (getCol row key). Qed.

Section CardFields.

Variable getSportIconUrl : string -> string.

Local Abbreviation build := (buildCardFromHighlight getSportIconUrl).

Ltac open_fields :=
  unfold buildCardFromHighlight;
  repeat match goal with
         | |- context [let '(_, _) := ?p in _] => destruct p eqn:?
         end.

Lemma buildCard_medal (highlight : Highlight.t) (index : Z) :
  (Card.medalLabel (build highlight index), Card.medalIcon (build highlight index))
  = normalizeMedal (Highlight.medals highlight).
Proof. open_fields. reflexivity. Qed.

Lemma buildCard_athletes (highlight : Highlight.t) (index : Z) :
  Card.athletes (build highlight index)
  = trim (orElse (Highlight.athleteName highlight) "Athlete Name").
Proof. open_fields. reflexivity. Qed.

Lemma buildCard_label (highlight : Highlight.t) (index : Z) :
  Card.sport (build highlight index)
  = trim (orElse (Highlight.sportTeamsg highlight)
                 (trim (orElse (Highlight.sport highlight) "Sport Name"))).
Proof. open_fields. reflexivity. Qed.

Lemma buildCard_eventDetails (highlight : Highlight.t) (index : Z) :
  Card.eventDetails (build highlight index)
  = let eventCustom :=
      trim (orElse (Highlight.eventCustom highlight) (Highlight.event highlight)) in
    let stage := trim (Highlight.stage highlight) in
    if truthy eventCustom && truthy stage
    then eventCustom +:+ " - " +:+ stage
    else orElse (orElse eventCustom stage) "Event Details".
Proof. open_fields. rewrite !orElse_empty. reflexivity. Qed.

Lemma buildCard_resultSummary (highlight : Highlight.t) (index : Z) :
  Card.resultSummary (build highlight index) = generateResultSummary highlight.
Proof. open_fields. reflexivity. Qed.

(** The scores of the competitors of a card, by classification. *)
Lemma buildCard_scores (highlight : Highlight.t) (index : Z) :
  map Competitor.score (Card.competitors (build highlight index))
  = let scoreSgp := trim (Highlight.scoreSgp highlight) in
    let scoreCompetitor := trim (Highlight.scoreCompetitor highlight) in
    let timing := trim (Highlight.timingSgp highlight) in
    if String.eqb (Highlight.type highlight) "h2h" then
      if truthy (trim (Highlight.competitorName highlight)) ||
         truthy (trim (Highlight.competitorCountry highlight))
      then [scoreSgp; scoreCompetitor] else [scoreSgp]
    else [orElse scoreSgp timing].
Proof.
  unfold buildCardFromHighlight. rewrite !orElse_empty.
  destruct (normalizeMedal (Highlight.medals highlight)) as [label icon].
  destruct (String.eqb (Highlight.type highlight) "h2h").
  - destruct (trim (Highlight.scoreSgp highlight)) as [|a s],
             (trim (Highlight.scoreCompetitor highlight)) as [|b c];
      cbn [truthy andb orElse];
      destruct (truthy (trim (Highlight.competitorName highlight)) ||
                truthy (trim (Highlight.competitorCountry highlight)));
      reflexivity.
  - destruct (trim (Highlight.scoreSgp highlight)) as [|a s]; cbn [truthy orElse];
      [destruct (trim (Highlight.timingSgp highlight))|]; reflexivity.
Qed.

(** X4. Score layout.  On a head-to-head card the primary score is the
    record's own score and the opponent's score is the opponent score, each
    trimmed and possibly empty: the elapsed time is never shown there, also
    when no score is given.  On an individual card there is one score: the
    record's score, or the elapsed time when the score is empty. *)
Theorem card_scores (highlight : Highlight.t) (index : Z) :
  let scores := map Competitor.score (Card.competitors (build highlight index)) in
  (Highlight.type highlight = "h2h" ->
   head scores = Some (trim (Highlight.scoreSgp highlight)) ∧
   Forall (fun score => score = trim (Highlight.scoreCompetitor highlight))
          (List.tail scores)) ∧
  (Highlight.type highlight <> "h2h" ->
   scores = [if truthy (trim (Highlight.scoreSgp highlight))
             then trim (Highlight.scoreSgp highlight)
             else trim (Highlight.timingSgp highlight)]).
Proof.
  intros scores. subst scores. rewrite buildCard_scores. cbv zeta. split.
  - intros ->. cbn [String.eqb Ascii.eqb Bool.eqb].
    destruct (_ || _); cbn [head List.tail]; split; try done.
    by apply Forall_singleton.
  - intros Hne. apply String.eqb_neq in Hne. by rewrite Hne.
Qed.

Lemma append_nonempty (a b : string) : a <> EmptyString -> a +:+ b <> EmptyString.
Proof. by destruct a. Qed.

(** X5. The event line and the result summary of a card are never empty,
    whatever the record holds. *)
Theorem card_texts_nonempty (highlight : Highlight.t) (index : Z) :
  Card.eventDetails (build highlight index) <> EmptyString ∧
  Card.resultSummary (build highlight index) <> EmptyString.
Proof.
  split.
  - rewrite buildCard_eventDetails. cbv zeta.
    destruct (truthy (trim (orElse _ _))) eqn:He; cbn [andb].
    + destruct (truthy (trim (Highlight.stage highlight))) eqn:Hs.
      * by apply append_nonempty, truthy_true.
      * by apply orElse_nonempty.
    + by apply orElse_nonempty.
  - rewrite buildCard_resultSummary. unfold generateResultSummary.
    by apply orElse_nonempty.
Qed.

(** X6. The card of an eligible row.  Whatever the rules mapping, a row that
    [filterHighlightRows] keeps gives a gold card whose medal label, athlete
    line, sport label and event line are the row's own trimmed cells: none of
    the placeholders of [buildCardFromHighlight] is used. *)
Theorem eligible_row_card (row : Row) (h2hMapping : option (gset string)) (index : Z) :
  isEligible row = true ->
  let card := build (formatHighlightData row h2hMapping) index in
  Card.medalIcon card = "🥇" ∧
  Card.medalLabel card = getCol row MEDALS ∧
  Card.athletes card = getCol row ATHLETE_NAME ∧
  Card.sport card = orElse (getCol row SPORT_TEAMSG) (getCol row SPORT) ∧
  Card.eventDetails card
    = orElse (getCol row EVENT_CUSTOM) (getCol row EVENT) +:+ " - " +:+ getCol row STAGE.
Proof.
  unfold isEligible, isNullMarker, nullMarkers. rewrite !hasValue_truthy.
  intros H. apply andb_prop in H as [H _]. apply andb_prop in H as [Hm Hb].
  apply andb_prop in Hm as [Hgold Hnull]. apply negb_true_iff in Hnull.
  apply andb_prop in Hb as [Hb Hathlete]. apply andb_prop in Hb as [Hb Hstage].
  apply andb_prop in Hb as [Hsport Hevent]. cbv zeta.
  set (card := build (formatHighlightData row h2hMapping) index).
  assert (truthy (getCol row MEDALS) = true) as Hmedal.
  { destruct (getCol row MEDALS); [discriminate Hgold|done]. }
  assert (normalizeMedal (getCol row MEDALS) = (getCol row MEDALS, "🥇")) as Hnorm.
  { unfold normalizeMedal. rewrite Hmedal, getCol_trimmed. cbn [negb].
    replace (truthy (toLowerCase (getCol row MEDALS))) with true
      by (by destruct (getCol row MEDALS)).
    cbn [negb orb]. by rewrite Hnull, Hgold. }
  pose proof (buildCard_medal (formatHighlightData row h2hMapping) index) as Hm.
  fold card in Hm. cbn [formatHighlightData Highlight.medals] in Hm.
  rewrite Hnorm in Hm. injection Hm as Hlabel Hicon.
  split; [done|]. split; [done|].
  subst card. rewrite buildCard_athletes, buildCard_label, buildCard_eventDetails.
  cbn [formatHighlightData Highlight.athleteName Highlight.sportTeamsg Highlight.sport
       Highlight.eventCustom Highlight.event Highlight.stage].
  cbv zeta.
  assert (forall a b, truthy b = true -> truthy (orElse a b) = true) as Hor.
  { intros a b Hb. unfold orElse. by destruct (truthy a) eqn:E. }
  assert (forall a b : ColumnKey,
            trim (orElse (getCol row a) (getCol row b)) = orElse (getCol row a) (getCol row b))
    as Htrim.
  { intros a b. unfold orElse. destruct (truthy (getCol row a)); apply getCol_trimmed. }
  split; [by rewrite orElse_truthy, getCol_trimmed|].
  split.
  - rewrite (orElse_truthy (orElse _ _)) by by apply Hor. apply Htrim.
  - rewrite Htrim, getCol_trimmed, Hor, Hstage by done. reflexivity.
Qed.

End CardFields.

Lemma card_scores_witness :
  head (map Competitor.score
          (Card.competitors
             (buildCardFromHighlight noIcons
                (exampleHighlight "Judo" "Judo" "Tan" "" "Gold" "h2h") 1))) = Some "2" ∧
  Forall (fun score => score = "1")
    (List.tail
       (map Competitor.score
          (Card.competitors
             (buildCardFromHighlight noIcons
                (exampleHighlight "Judo" "Judo" "Tan" "" "Gold" "h2h") 1)))).
Proof.
  exact (proj1 (card_scores noIcons
                  (exampleHighlight "Judo" "Judo" "Tan" "" "Gold" "h2h") 1) eq_refl).
Defined.

Lemma eligible_row_card_witness :
  Card.medalLabel (buildCardFromHighlight noIcons (formatHighlightData rowWithGold None) 1)
  = "Gold".
Proof.
  apply (eligible_row_card noIcons rowWithGold None 1).
  vm_compute. reflexivity.
Defined.

(** ** Paginator: which cards a slide holds *)

Lemma slidesNeeded_pred (n k : nat) :
  (0 < k)%nat -> (0 < n)%nat -> slidesNeeded n k = S ((n - 1) / k).
Proof.
  intros Hk Hn. unfold slidesNeeded.
  replace (n + k - 1)%nat with (n - 1 + 1 * k)%nat by lia.
  rewrite Nat.div_add by lia. lia.
Qed.

Lemma slidesNeeded_zero (k : nat) : (0 < k)%nat -> slidesNeeded 0 k = 0%nat.
Proof. intros Hk. unfold slidesNeeded. apply Nat.div_small. lia. Qed.

Lemma slidesNeeded_step (n k : nat) :
  (0 < k)%nat -> (0 < n)%nat -> slidesNeeded n k = S (slidesNeeded (n - k) k).
Proof.
  intros Hk Hn. rewrite slidesNeeded_pred by done. f_equal.
  destruct (decide (n <= k)%nat) as [Hle|Hgt].
  - replace (n - k)%nat with 0%nat by lia. rewrite slidesNeeded_zero by done.
    apply Nat.div_small. lia.
  - unfold slidesNeeded. f_equal. lia.
Qed.

(** Below the number of slides needed, a slide starts inside the cards. *)
Lemma slidesNeeded_start (n k j : nat) :
  (0 < k)%nat -> (j < slidesNeeded n k)%nat -> (j * k < n)%nat.
Proof.
  intros Hk Hj. destruct (decide (n = 0)%nat) as [->|Hn].
  { rewrite slidesNeeded_zero in Hj by done. lia. }
  rewrite slidesNeeded_pred in Hj by lia.
  pose proof (Nat.Div0.mul_div_le (n - 1) k) as Hq. nia.
Qed.

Section Slides.
Context {A : Type}.
Implicit Types (cards : list A) (slides : list (list A)).

Lemma chunkLoop_slides cards k pos i slides :
  chunkLoop cards k pos i slides
  = slides ++ map (fun j => take k (drop (i + j * k) cards))
                  (seq 0 (slidesNeeded (length cards - i) k)).
Proof.
  funelim (chunkLoop cards k pos i slides).
  - rewrite H. rewrite <- app_assoc. f_equal.
    rewrite (slidesNeeded_step (length cards - i)) by lia.
    cbn [seq map app]. f_equal.
    + unfold slice. f_equal; [lia|]. f_equal. lia.
    + replace (length cards - (i + chunkSize))%nat
        with (length cards - i - chunkSize)%nat by lia.
      rewrite <- seq_shift, map_map. apply map_ext. intros j.
      f_equal. f_equal. lia.
  - replace (length cards - i)%nat with 0%nat by lia.
    rewrite slidesNeeded_zero by done. by rewrite app_nil_r.
Qed.

Lemma chunkCards_positive cards (k : nat) :
  (0 < k)%nat ->
  chunkCards cards (Z.of_nat k)
  = match cards with
    | [] => [[]]
    | _ => map (fun j => take k (drop (j * k) cards))
               (seq 0 (slidesNeeded (length cards) k))
    end.
Proof.
  intros Hk. unfold chunkCards. rewrite Nat2Z.id.
  destruct (decide (0 < k)%nat) as [pos|]; [|done].
  rewrite chunkLoop_slides. cbn [app]. rewrite Nat.sub_0_r.
  destruct cards as [|c cards].
  - cbn [length]. by rewrite slidesNeeded_zero.
  - rewrite length_map, length_seq, (slidesNeeded_pred (length (c :: cards))) by (simpl; lia).
    reflexivity.
Qed.

End Slides.

(** X7. Slides in general.  With a positive size [k], [chunkCards] returns
    at least one slide and as many as the cards need; slide [j] holds the
    cards from position [j * k] on, at most [k] of them; every slide but the
    last is full, and no slide is empty unless there are no cards.  A size of
    zero or less gives one slide with all the cards. *)
Theorem chunkCards_slides (A : Type) (cards : list A) (k : nat) :
  (0 < k)%nat ->
  let slides := chunkCards cards (Z.of_nat k) in
  length slides = (1 `max` slidesNeeded (length cards) k)%nat ∧
  (forall (j : nat) (slide : list A),
     slides !! j = Some slide -> slide = take k (drop (j * k) cards)) ∧
  (forall (j : nat) (slide : list A),
     slides !! j = Some slide -> (S j < length slides)%nat -> length slide = k) ∧
  (cards <> [] -> Forall (fun slide => slide <> []) slides) ∧
  (forall chunkSize : Z, chunkSize <= 0 -> chunkCards cards chunkSize = [cards]).
Proof.
  intros Hk slides.
  assert (forall (j : nat) (slide : list A),
            slides !! j = Some slide ->
            slide = take k (drop (j * k) cards) ∧
            (cards <> [] -> j < slidesNeeded (length cards) k)%nat) as Hat.
  { intros j slide. subst slides. rewrite chunkCards_positive by done.
    destruct cards as [|c cards'] eqn:Hc.
    - destruct j as [|j]; [|done]. intros [= <-]. split; [|done].
      by rewrite drop_nil, take_nil.
    - rewrite <- Hc. rewrite list_lookup_fmap.
      intros Hl. apply fmap_Some in Hl as (j' & Hj & ->).
      apply lookup_seq in Hj as [-> Hlt]. by split. }
  assert (length slides = (1 `max` slidesNeeded (length cards) k)%nat) as Hlen.
  { subst slides. rewrite chunkCards_positive by done. destruct cards as [|c cards'].
    - cbn [length]. by rewrite slidesNeeded_zero.
    - rewrite length_map, length_seq.
      rewrite (slidesNeeded_pred (length (c :: cards'))) by (simpl; lia). lia. }
  split; [done|]. split; [intros j slide Hl; by apply Hat|]. split; [|split].
  - intros j slide Hl Hj. destruct (Hat j slide Hl) as [-> _].
    rewrite length_take, length_drop. rewrite Hlen in Hj.
    assert (S j < slidesNeeded (length cards) k)%nat as Hj' by lia.
    apply slidesNeeded_start in Hj'; [|done]. lia.
  - intros Hne. apply Forall_forall. intros slide Hin.
    apply list_elem_of_lookup in Hin as [j Hl].
    destruct (Hat j slide Hl) as [-> Hj]. specialize (Hj Hne).
    apply slidesNeeded_start in Hj; [|done].
    intros E. apply (f_equal length) in E.
    rewrite length_take, length_drop in E. simpl in E. lia.
  - intros chunkSize Hle. unfold chunkCards.
    destruct (decide (0 < Z.to_nat chunkSize)%nat) as [pos|]; [lia|done].
Qed.

Lemma chunkCards_slides_witness :
  length (chunkCards (replicate 10 "card") 9) = 2%nat.
Proof.
  apply (chunkCards_slides string (replicate 10 "card") 9).
  lia.
Defined.

(** ** The batch: selection of rows, tally and slides *)

Lemma filter_sublist {A : Type} (f : A -> bool) (l : list A) :
  sublist (List.filter f l) l.
Proof.
  induction l as [|x l IH]; cbn [List.filter]; [done|].
  destruct (f x); [by apply sublist_skip|by apply sublist_cons].
Qed.

Lemma selectRows_sublist_valid dateParse (data : list Row) (date sport : string) :
  sublist (selectRows dateParse data date sport) (filterHighlightRows data).
Proof.
  unfold selectRows. cbv zeta.
  destruct (truthy sport); [etrans; [apply filter_sublist|]|];
    destruct (truthy date); try done; apply filter_sublist.
Qed.

Lemma selectRows_eligible dateParse (data : list Row) (date sport : string) (row : Row) :
  row ∈ selectRows dateParse data date sport -> isEligible row = true.
Proof.
  intros Hin.
  eapply elem_of_sublist in Hin; [|apply selectRows_sublist_valid].
  rewrite filterHighlightRows_filter in Hin.
  apply list_elem_of_In, filter_In in Hin. tauto.
Qed.

(** The medal test of the tally holds of an eligible row's record. *)
Lemma countsAsGold_eligible (row : Row) (h2hMapping : option (gset string)) :
  isEligible row = true -> countsAsGold (formatHighlightData row h2hMapping) = true.
Proof.
  unfold isEligible, isNullMarker, nullMarkers. intros H.
  apply andb_prop in H as [H _]. apply andb_prop in H as [Hm _].
  apply andb_prop in Hm as [Hgold Hnull].
  unfold countsAsGold. cbn [formatHighlightData Highlight.medals].
  rewrite orElse_empty, getCol_trimmed, Hnull, Hgold.
  replace (truthy (toLowerCase (getCol row MEDALS))) with true; [done|].
  destruct (getCol row MEDALS); [discriminate Hgold|done].
Qed.

Lemma goldCount_from (highlights : list Highlight.t) (count : Z) :
  foldl (fun count highlight => if countsAsGold highlight then count + 1 else count)
        count highlights
  = count + goldCount highlights.
Proof.
  unfold goldCount. revert count.
  induction highlights as [|h hs IH]; intros count; cbn [foldl]; [lia|].
  rewrite IH, (IH (if countsAsGold h then 0 + 1 else 0)).
  destruct (countsAsGold h); lia.
Qed.

Lemma goldCount_eligible (rows : list Row) (h2hMapping : option (gset string)) :
  Forall (fun row => isEligible row = true) rows ->
  goldCount (map (fun row => formatHighlightData row h2hMapping) rows)
  = Z.of_nat (length rows).
Proof.
  induction 1 as [|row rows Hrow _ IH]; [done|].
  cbn [map length]. unfold goldCount. cbn [foldl].
  rewrite goldCount_from, IH, (countsAsGold_eligible _ _ Hrow). lia.
Qed.

Lemma chunkCards_concat {A : Type} (cards : list A) (k : nat) :
  (0 < k)%nat -> concat (chunkCards cards (Z.of_nat k)) = cards.
Proof.
  intros Hk. unfold chunkCards. rewrite Nat2Z.id.
  destruct (decide (0 < k)%nat) as [pos|]; [|done].
  pose proof (chunkLoop_concat cards k pos 0 []) as Hc.
  rewrite drop_0 in Hc. cbn [concat app] in Hc.
  destruct (chunkLoop cards k pos 0 []) as [|s ss]; cbn [length Nat.ltb Nat.leb]; [|done].
  by rewrite <- Hc.
Qed.

Lemma sortStable_length {A : Type} (compare : A -> A -> Z) (l : list A) :
  length (sortStable compare l) = length l.
Proof.
  induction l as [|x l IH]; [done|]. cbn [sortStable length]. rewrite <- IH.
  generalize (sortStable compare l). clear. intros l.
  induction l as [|y l IH]; [done|]. cbn [insertSorted].
  destruct (0 <? compare x y); cbn [length]; [by rewrite IH|done].
Qed.

(** X8. Tally and slides of a batch.  Whatever the request, the sheet and the
    rules mapping: every highlight is a gold one, so the gold tally of
    [generateHTML] is the number of highlights; there is one card for each
    highlight, and the slides together hold each card once. *)
Theorem batch_tally dateParse getSportIconUrl localeCompare
    (h2hMapping : gset string) (data : list Row) (date sport : string) :
  let highlights := highlightsOf dateParse h2hMapping data date sport in
  let cards := generateHTML_cards getSportIconUrl localeCompare highlights in
  let slides := generateHTML_slides getSportIconUrl localeCompare highlights in
  goldCount highlights = Z.of_nat (length highlights) ∧
  length cards = length highlights ∧
  concat slides = cards ∧
  (1 <= length slides)%nat.
Proof.
  intros highlights cards slides.
  split.
  { subst highlights. unfold highlightsOf. rewrite goldCount_eligible, length_map; [done|].
    apply Forall_forall. intros row Hin. by eapply selectRows_eligible. }
  split.
  { subst cards. unfold generateHTML_cards, sortAndRenumber.
    by rewrite renumber_length, sortStable_length, length_imap. }
  split.
  { subst slides. unfold generateHTML_slides. fold cards.
    apply (chunkCards_concat cards 9). lia. }
  subst slides. unfold generateHTML_slides. fold cards.
  change 9 with (Z.of_nat 9). rewrite chunkCards_positive by lia.
  destruct cards; cbn [length]; [lia|].
  rewrite length_map, length_seq, slidesNeeded_pred by (simpl; lia). lia.
Qed.

Lemma getCol_cell (row : Row) (key : ColumnKey) :
  trim (orElse (default EmptyString (row !! COLUMN_MAPPINGS key)) EmptyString)
  = getCol row key.
Proof. reflexivity. Qed.

(** X9. Selection only narrows.  The rows of a request are rows of the sheet
    in sheet order, each of them eligible; with a sport asked for, each has
    that sport up to case; with a date asked for, each has a date cell that is
    not empty and normalises to what the asked date normalises to; with
    neither, they are the rows that [filterHighlightRows] keeps. *)
Theorem selectRows_narrows dateParse (data : list Row) (date sport : string) :
  sublist (selectRows dateParse data date sport) data ∧
  (forall row : Row,
     row ∈ selectRows dateParse data date sport ->
     isEligible row = true ∧
     (sport <> EmptyString ->
      toLowerCase (getCol row SPORT) = toLowerCase sport) ∧
     (date <> EmptyString ->
      getCol row DATE_SGP <> EmptyString ∧
      normalizeDate dateParse (InString (getCol row DATE_SGP))
      = normalizeDate dateParse (InString date))) ∧
  selectRows dateParse data EmptyString EmptyString = filterHighlightRows data.
Proof.
  split; [|split].
  - etrans; [apply selectRows_sublist_valid|].
    rewrite filterHighlightRows_filter. apply filter_sublist.
  - intros row Hin. split; [by eapply selectRows_eligible|].
    unfold selectRows in Hin. cbv zeta in Hin. split.
    + intros Hs. apply truthy_true in Hs. rewrite Hs in Hin.
      apply list_elem_of_In, filter_In in Hin as [_ Hsp].
      unfold rowOfSport in Hsp. rewrite getCol_cell in Hsp.
      by apply String.eqb_eq in Hsp.
    + intros Hd. apply truthy_true in Hd. rewrite Hd in Hin.
      assert (rowOnDate dateParse (normalizeDate dateParse (InString date)) row = true)
        as Hon.
      { destruct (truthy sport).
        - apply list_elem_of_In, filter_In in Hin as [Hin _].
          apply filter_In in Hin. tauto.
        - apply list_elem_of_In, filter_In in Hin. tauto. }
      unfold rowOnDate in Hon. rewrite getCol_cell in Hon.
      destruct (getCol row DATE_SGP) as [|c d] eqn:E; [discriminate Hon|].
      cbn [truthy negb] in Hon. split; [done|]. by apply String.eqb_eq in Hon.
  - reflexivity.
Qed.

Lemma mapString_length (f : ascii -> ascii) (s : string) :
  String.length (mapString f s) = String.length s.
Proof. induction s as [|c s IH]; cbn; [done|]. by rewrite IH. Qed.

Lemma isWhiteSpace_toLowerChar (c : ascii) :
  isWhiteSpace (toLowerChar c) = isWhiteSpace c.
Proof. destruct c as [[] [] [] [] [] [] [] []]; reflexivity. Qed.

Lemma trimStart_toLowerCase (s : string) :
  trimStart (toLowerCase s) = toLowerCase (trimStart s).
Proof.
  induction s as [|c s IH]; [done|]. unfold toLowerCase in *.
  cbn [mapString trimStart]. rewrite isWhiteSpace_toLowerChar.
  by destruct (isWhiteSpace c).
Qed.

Lemma trimEnd_toLowerCase (s : string) :
  trimEnd (toLowerCase s) = toLowerCase (trimEnd s).
Proof.
  induction s as [|c s IH]; [done|]. unfold toLowerCase in *.
  cbn [mapString trimEnd]. rewrite IH, isWhiteSpace_toLowerChar.
  destruct (trimEnd s); cbn [mapString]; [by destruct (isWhiteSpace c)|done].
Qed.

Lemma trim_toLowerCase (s : string) : trim (toLowerCase s) = toLowerCase (trim s).
Proof. unfold trim. by rewrite trimStart_toLowerCase, trimEnd_toLowerCase. Qed.

Lemma trimEnd_length (s : string) :
  (String.length (trimEnd s) <= String.length s)%nat.
Proof.
  induction s as [|c s IH]; [done|]. cbn [trimEnd].
  destruct (trimEnd s); [destruct (isWhiteSpace c)|]; cbn [String.length] in *; lia.
Qed.

Lemma trimStart_full (s : string) :
  String.length (trimStart s) = String.length s -> trimStart s = s.
Proof.
  destruct s as [|c s]; [done|]. cbn [trimStart].
  destruct (isWhiteSpace c); [|done].
  pose proof (trimStart_length s). cbn [String.length]. lia.
Qed.

Lemma trimEnd_full (s : string) :
  String.length (trimEnd s) = String.length s -> trimEnd s = s.
Proof.
  induction s as [|c s IH]; [done|]. cbn [trimEnd].
  pose proof (trimEnd_length s) as Hle.
  destruct (trimEnd s) as [|a r] eqn:E.
  - destruct (isWhiteSpace c); cbn [String.length]; [lia|].
    intros H. destruct s; [done|]. cbn [String.length] in H. lia.
  - cbn [String.length] in *. intros H. f_equal. apply IH. lia.
Qed.

Lemma trim_full (s : string) :
  String.length (trim s) = String.length s -> trim s = s.
Proof.
  unfold trim. intros H.
  pose proof (trimStart_length s). pose proof (trimEnd_length (trimStart s)).
  assert (trimStart s = s) as Hs by (apply trimStart_full; lia).
  rewrite Hs in *. by apply trimEnd_full.
Qed.

(** X10. The sport asked for is compared as it is written: when it carries
    whitespace at either end, no row has that sport and the request selects
    nothing. *)
Theorem selectRows_padded_sport dateParse (data : list Row) (date sport : string) :
  trim sport <> sport -> selectRows dateParse data date sport = [].
Proof.
  intros Hpad. unfold selectRows. cbv zeta.
  assert (truthy sport = true) as -> by (by destruct sport).
  match goal with |- List.filter _ ?l = [] => generalize l end.
  intros rows. induction rows as [|row rows IH]; [done|].
  cbn [List.filter]. rewrite IH.
  destruct (rowOfSport sport row) eqn:E; [|done].
  exfalso. apply Hpad. unfold rowOfSport in E. rewrite getCol_cell in E.
  apply String.eqb_eq in E. apply trim_full.
  pose proof (f_equal String.length E) as Hlen.
  pose proof (f_equal (fun t => String.length (trim t)) E) as Htrim.
  cbv beta in Htrim. rewrite !trim_toLowerCase, getCol_trimmed in Htrim.
  unfold toLowerCase in Hlen, Htrim. rewrite !mapString_length in Hlen, Htrim.
  lia.
Qed.

Lemma selectRows_padded_sport_witness :
  selectRows (fun _ => None) [rowWithGold] EmptyString "Swimming " = [].
Proof.
  apply (selectRows_padded_sport (fun _ => None) [rowWithGold] EmptyString "Swimming ").
  discriminate.
Defined.

Lemma selectRows_narrows_witness :
  toLowerCase (getCol rowWithGold SPORT) = toLowerCase "SWIMMING".
Proof.
  apply (proj1 (proj2 (selectRows_narrows (fun _ => None) [rowWithGold]
                         EmptyString "SWIMMING")) rowWithGold).
  - vm_compute. apply list_elem_of_here.
  - discriminate.
Defined.

(** ** Flags *)

Lemma flagMap_find (key code ext : string) :
  (key, (code, ext)) ∈ flagMap ->
  List.find (fun e => String.eqb (fst e) key) flagMap = Some (key, (code, ext)) ∧
  key <> EmptyString.
Proof.
  unfold flagMap. intros H.
  repeat (apply elem_of_cons in H as [H|H]; [injection H as -> -> ->; by split|]).
  by apply elem_of_nil in H.
Qed.

Lemma find_some_elem {A : Type} (p : A -> bool) (l : list A) (x : A) :
  List.find p l = Some x -> x ∈ l ∧ p x = true.
Proof.
  intros H. apply find_some in H as [Hin Hp]. by rewrite list_elem_of_In.
Qed.

(** X11. Flags.  [resolveFlag] never gives an icon, and its image is empty or
    the file of an entry of the flag table whose key is the country, trimmed
    and upper-cased, or contains it, or is contained in it.  A country that
    is a key of the table, whatever its case and surrounding whitespace, gets
    the file of that key; a blank country gets none. *)
Theorem resolveFlag_table (countryValue : string) :
  let country := toUpperCase (trim countryValue) in
  fst (resolveFlag countryValue) = EmptyString ∧
  (snd (resolveFlag countryValue) = EmptyString ∨
   exists key code ext,
     (key, (code, ext)) ∈ flagMap ∧
     snd (resolveFlag countryValue) = "flags/" +:+ code +:+ "." +:+ ext ∧
     (key = country ∨ includes country key = true ∨ includes key country = true)) ∧
  (forall key code ext,
     (key, (code, ext)) ∈ flagMap -> country = key ->
     snd (resolveFlag countryValue) = "flags/" +:+ code +:+ "." +:+ ext) ∧
  (trim countryValue = EmptyString -> resolveFlag countryValue = (EmptyString, EmptyString)).
Proof.
  intros country. unfold resolveFlag. fold country.
  destruct (truthy countryValue) eqn:Hv; cbn [negb].
  2:{ apply truthy_false in Hv. subst countryValue country.
      split; [done|]. split; [by left|]. split; [|done].
      intros key code ext Hin E. apply flagMap_find in Hin as [_ Hne]. by rewrite <- E in Hne. }
  destruct (truthy country) eqn:Hc; cbn [negb].
  2:{ apply truthy_false in Hc. split; [done|]. split; [by left|]. split; [|done].
      intros key code ext Hin E. apply flagMap_find in Hin as [_ Hne].
      by rewrite <- E, Hc in Hne. }
  split; [|split; [|split]].
  - by repeat case_match.
  - destruct (List.find (fun e => String.eqb (fst e) country) flagMap)
      as [[key [code ext]]|] eqn:Hexact.
    + apply find_some_elem in Hexact as [Hin Hp]. cbn [fst] in Hp.
      apply String.eqb_eq in Hp. right. exists key, code, ext. cbn [snd].
      split; [done|]. split; [done|]. by left.
    + destruct (List.find (fun e => includes country (fst e) || includes (fst e) country)
                          flagMap) as [[key [code ext]]|] eqn:Hfuzzy; [|by left].
      apply find_some_elem in Hfuzzy as [Hin Hp]. cbn [fst] in Hp.
      apply orb_prop in Hp. right. exists key, code, ext. cbn [fmap option_fmap option_map snd].
      split; [done|]. split; [done|]. right. done.
  - intros key code ext Hin E. rewrite E.
    apply flagMap_find in Hin as [-> _]. reflexivity.
  - intros E. subst country. rewrite E in Hc. discriminate Hc.
Qed.

Lemma resolveFlag_table_witness :
  snd (resolveFlag " Brunei ") = "flags/BRU.jpg".
Proof.
  apply (proj1 (proj2 (proj2 (resolveFlag_table " Brunei "))) "BRUNEI" "BRU" "jpg").
  - unfold flagMap. do 19 apply list_elem_of_further. apply list_elem_of_here.
  - reflexivity.
Defined.

(** ** Loading the sheet *)

Lemma rowObjectFrom_absent (headers : list string) (row : list string) (idx : nat)
    (obj : Row) (k : string) :
  k ∉ headers -> rowObjectFrom idx headers row obj !! k = obj !! k.
Proof.
  revert idx obj. induction headers as [|h hs IH]; intros idx obj Hk; [done|].
  cbn [rowObjectFrom]. apply not_elem_of_cons in Hk as [Hne Hk].
  rewrite IH by done. unfold rowSet.
  destruct (String.eqb h "__proto__"); [done|]. by rewrite lookup_insert_ne.
Qed.

Lemma rowObjectFrom_last (headers : list string) (row : list string) (idx : nat)
    (obj : Row) (k : string) (j : nat) :
  k <> "__proto__" ->
  headers !! j = Some k ->
  (forall j', headers !! j' = Some k -> (j' <= j)%nat) ->
  rowObjectFrom idx headers row obj !! k = Some (cell row (idx + j)).
Proof.
  intros Hown. apply String.eqb_neq in Hown.
  revert idx obj j. induction headers as [|h hs IH]; intros idx obj j Hj Hlast; [done|].
  cbn [rowObjectFrom]. destruct j as [|j].
  - injection Hj as ->. rewrite rowObjectFrom_absent.
    + unfold rowSet. rewrite Hown, lookup_insert_eq. by rewrite Nat.add_0_r.
    + intros Hin. apply list_elem_of_lookup in Hin as [j' Hj'].
      specialize (Hlast (S j') Hj'). lia.
  - rewrite (IH (S idx) _ j); [f_equal; f_equal; lia|done|].
    intros j' Hj'. specialize (Hlast (S j') Hj'). lia.
Qed.

Lemma rowObjectFrom_dom (headers : list string) (row : list string) (idx : nat)
    (obj : Row) :
  dom (rowObjectFrom idx headers row obj) = list_to_set (ownHeaders headers) ∪ dom obj.
Proof.
  revert idx obj.
  induction headers as [|h hs IH]; intros idx obj;
    cbn [rowObjectFrom ownHeaders List.filter].
  - by rewrite list_to_set_nil, (left_id_L ∅ (∪)).
  - fold (ownHeaders hs). rewrite IH. unfold rowSet.
    destruct (String.eqb h "__proto__"); cbn [negb]; [done|].
    rewrite dom_insert_L, list_to_set_cons.
    rewrite (comm_L (∪) {[h]} (list_to_set (ownHeaders hs))). by rewrite (assoc_L (∪)).
Qed.

Lemma COLUMN_MAPPINGS_own (key : ColumnKey) : COLUMN_MAPPINGS key <> "__proto__".
Proof. by destruct key. Qed.

(** X12. Reading cells by column name.  A sheet shorter than [startRow] gives
    no headers and no rows.  Otherwise the row before [startRow] gives the
    headers, and each later row gives one object, in order, whose keys are
    the normalised headers (but for a header [__proto__], which sets no
    property); [getCol] of a column then reads the trimmed cell under the
    last header that normalises to the column's name, and the empty string
    when no header does. *)
Theorem loadData_cells :
  (forall (rows : list (list string)) (startRow : nat),
     (length rows < startRow)%nat -> loadData rows startRow = Some ([], [])) ∧
  (forall (rows : list (list string)) (before : nat) (headerRow : list string),
     rows !! before = Some headerRow ->
     exists data,
       loadData rows (S before) = Some (map normalizeHeader headerRow, data) ∧
       length data = (length rows - S before)%nat ∧
       forall (j : nat) (row : list string),
         rows !! (S before + j)%nat = Some row ->
         exists obj,
           data !! j = Some obj ∧
           dom obj = list_to_set (ownHeaders (map normalizeHeader headerRow)) ∧
           (forall (key : ColumnKey) (idx : nat) (raw : string),
              headerRow !! idx = Some raw ->
              normalizeHeader raw = COLUMN_MAPPINGS key ->
              (forall idx' raw', headerRow !! idx' = Some raw' ->
                                 normalizeHeader raw' = COLUMN_MAPPINGS key ->
                                 (idx' <= idx)%nat) ->
              getCol obj key = trim (cell row idx)) ∧
           (forall key : ColumnKey,
              COLUMN_MAPPINGS key ∉ map normalizeHeader headerRow ->
              getCol obj key = EmptyString)).
Proof.
  split.
  - intros rows startRow Hlt. unfold loadData.
    by rewrite (proj2 (Nat.ltb_lt _ _) Hlt).
  - intros rows before headerRow Hh.
    pose proof (lookup_lt_Some _ _ _ Hh) as Hlen.
    eexists. split; [|split].
    + unfold loadData. rewrite (proj2 (Nat.ltb_ge _ _)) by lia. by rewrite Hh.
    + by rewrite length_map, length_drop.
    + intros j row Hrow. exists (rowObject (map normalizeHeader headerRow) row).
      split; [by rewrite list_lookup_fmap, lookup_drop, Hrow|].
      unfold rowObject. split; [|split].
      * by rewrite rowObjectFrom_dom, dom_empty_L, (right_id_L ∅ (∪)).
      * intros key idx raw Hidx Hnorm Hlast. unfold getCol.
        rewrite (rowObjectFrom_last _ _ _ _ _ idx).
        -- cbn [default]. by rewrite orElse_empty.
        -- apply COLUMN_MAPPINGS_own.
        -- by rewrite list_lookup_fmap, Hidx, <- Hnorm.
        -- intros idx' Hidx'. rewrite list_lookup_fmap in Hidx'.
           apply fmap_Some in Hidx' as (raw' & Hraw' & E). by eapply Hlast.
      * intros key Habsent. unfold getCol.
        by rewrite rowObjectFrom_absent, lookup_empty.
Qed.

Lemma loadData_cells_witness :
  exists data,
    loadData [["Sport"; " STAGE /   ROUND OF  COMPETITION "]; ["Judo"; " Final "]] 1
    = Some (map normalizeHeader ["Sport"; " STAGE /   ROUND OF  COMPETITION "], data) ∧
    exists obj, data !! 0%nat = Some obj ∧ getCol obj STAGE = "Final".
Proof.
  destruct (proj2 loadData_cells
              [["Sport"; " STAGE /   ROUND OF  COMPETITION "]; ["Judo"; " Final "]]
              0%nat ["Sport"; " STAGE /   ROUND OF  COMPETITION "] eq_refl)
    as (data & Hload & _ & Hrows).
  exists data. split; [exact Hload|].
  destruct (Hrows 0%nat ["Judo"; " Final "] eq_refl) as (obj & Hobj & _ & Hcol & _).
  exists obj. split; [exact Hobj|].
  apply (Hcol STAGE 1%nat " STAGE /   ROUND OF  COMPETITION "); [reflexivity..|].
  intros [|[|idx']] raw' Hl; [lia|lia|discriminate Hl].
Defined.

(** ** Sport icons *)

Example splitWords_ex :
  splitWords "a  b" = ["a"; "b"] ∧ splitWords " a" = [""; "a"] ∧
  splitWords "a " = ["a"; ""] ∧ splitWords "" = [""] ∧ splitWords " " = [""; ""].
Proof. repeat split. Qed.

Example encodeURIComponent_ex :
  encodeURIComponent "Tug of War & more/1" = "Tug%20of%20War%20%26%20more%2F1".
Proof. reflexivity. Qed.

Example objectEntries_ex :
  objectEntries [("judo", "a"); ("10", "b"); ("07", "c"); ("9", "d")]
  = [("9", "d"); ("10", "b"); ("judo", "a"); ("07", "c")].
Proof. reflexivity. Qed.

Example getSportIconUrl_ex :
  getSportIconUrl (loadSportIconMapping None (Some [("Sepak Takraw", "Icon_ST.png")]))
                      (fun _ => false) "Sepaktakraw " = Some "sports/Icon_ST.png" ∧
  getSportIconUrl [] (fun _ => false) "Tug of War"
  = Some (iconUrlBase +:+ "SPORTS-TUG-OF-WAR/Icon_Tug%20of%20War.png").
Proof. split; reflexivity. Qed.

Lemma startsWith_append (p s : string) : startsWith p (p +:+ s) = true.
Proof.
  induction p as [|c p IH]; [by destruct s|].
  change (String c p +:+ s) with (String c (p +:+ s)). cbn [startsWith].
  by rewrite Ascii.eqb_refl, IH.
Qed.

Lemma startsWith_nonempty (p s : string) :
  startsWith p s = true -> p <> EmptyString -> s <> EmptyString.
Proof. destruct p, s; cbn; congruence. Qed.

Lemma objUpdate_elem (key value : string) (obj : JsObject) (e : string * string) :
  e ∈ objUpdate key value obj -> e = (key, value) ∨ e ∈ obj.
Proof.
  induction obj as [|[k v] obj IH]; cbn [objUpdate].
  - intros H. apply list_elem_of_singleton in H. by left.
  - destruct (String.eqb k key) eqn:E.
    + apply String.eqb_eq in E. subst k.
      intros H. apply elem_of_cons in H as [->|H]; [by left|].
      right. by apply list_elem_of_further.
    + intros H. apply elem_of_cons in H as [->|H]; [right; apply list_elem_of_here|].
      destruct (IH H) as [->|Hin]; [by left|right; by apply list_elem_of_further].
Qed.

Lemma objUpdate_keys (key value : string) (obj : JsObject) (x : string) :
  x ∈ map fst (objUpdate key value obj) <-> x = key ∨ x ∈ map fst obj.
Proof.
  induction obj as [|[k v] obj IH]; cbn [objUpdate map fst].
  - rewrite list_elem_of_singleton. split; [by left|]. intros [H|H]; [done|].
    by apply elem_of_nil in H.
  - destruct (String.eqb k key) eqn:E; cbn [map fst]; rewrite !elem_of_cons.
    + apply String.eqb_eq in E. subst k. tauto.
    + rewrite IH. tauto.
Qed.

Lemma objUpdate_NoDup (key value : string) (obj : JsObject) :
  NoDup (map fst obj) -> NoDup (map fst (objUpdate key value obj)).
Proof.
  induction obj as [|[k v] obj IH]; cbn [objUpdate map fst]; intros Hnd.
  - apply NoDup_singleton.
  - apply NoDup_cons in Hnd as [Hk Hnd].
    destruct (String.eqb k key) eqn:E; cbn [map fst]; apply NoDup_cons.
    + done.
    + split; [|by apply IH]. rewrite objUpdate_keys.
      apply String.eqb_neq in E. intros [->|H]; done.
Qed.

Lemma objSet_ok (key fileName : string) (obj : JsObject) :
  iconMappingOk obj -> iconMappingOk (objSet key ("sports/" +:+ fileName) obj).
Proof.
  intros [Hnd Hv]. unfold objSet. destruct (String.eqb key "__proto__"); [done|].
  split; [by apply objUpdate_NoDup|].
  apply Forall_forall. intros e He. apply objUpdate_elem in He as [->|He].
  - apply (startsWith_append "sports/").
  - by apply (proj1 (Forall_forall _ _) Hv).
Qed.

Lemma addIconItem_ok (obj : JsObject) (item : string * string) :
  iconMappingOk obj -> iconMappingOk (addIconItem obj item).
Proof.
  intros Hok. unfold addIconItem. cbv zeta.
  generalize (iconVariations (toLowerCase (fst item))). intros keys.
  assert (iconMappingOk
            (objSet (toLowerCase (fst item)) ("sports/" +:+ snd item) obj)) as Hstart
    by by apply objSet_ok.
  revert Hstart. generalize (objSet (toLowerCase (fst item)) ("sports/" +:+ snd item) obj).
  induction keys as [|k keys IH]; intros o Ho; cbn [foldl]; [done|].
  apply IH. by apply objSet_ok.
Qed.

Lemma loadSportIconMapping_ok (file : option (list (string * string))) :
  iconMappingOk (loadSportIconMapping None file).
Proof.
  unfold loadSportIconMapping.
  assert (iconMappingOk []) as Hnil by (split; constructor).
  destruct file as [mapping|]; [|done].
  revert Hnil. generalize (@nil (string * string)).
  induction mapping as [|item mapping IH]; intros o Ho; cbn [foldl]; [done|].
  apply IH. by apply addIconItem_ok.
Qed.

Lemma insertSorted_elem {A : Type} (compare : A -> A -> Z) (x y : A) (l : list A) :
  y ∈ insertSorted compare x l <-> y = x ∨ y ∈ l.
Proof.
  induction l as [|z l IH]; cbn [insertSorted].
  - by rewrite elem_of_cons.
  - destruct (0 <? compare x z); rewrite !elem_of_cons; [rewrite IH|]; tauto.
Qed.

Lemma sortStable_elem {A : Type} (compare : A -> A -> Z) (y : A) (l : list A) :
  y ∈ sortStable compare l <-> y ∈ l.
Proof.
  induction l as [|x l IH]; cbn [sortStable]; [done|].
  rewrite insertSorted_elem, elem_of_cons, IH. tauto.
Qed.

Lemma objectEntries_elem (obj : JsObject) (e : string * string) :
  e ∈ objectEntries obj <-> e ∈ obj.
Proof.
  unfold objectEntries.
  rewrite elem_of_app, sortStable_elem, !list_elem_of_In, !filter_In.
  destruct (isArrayIndex (fst e)); cbn [negb]; intuition congruence.
Qed.

Lemma find_key_NoDup (obj : JsObject) (k v : string) :
  NoDup (map fst obj) -> (k, v) ∈ obj ->
  List.find (fun e => String.eqb (fst e) k) obj = Some (k, v).
Proof.
  induction obj as [|[k0 v0] obj IH]; intros Hnd Hin; [by apply elem_of_nil in Hin|].
  cbn [map fst] in Hnd. apply NoDup_cons in Hnd as [Hk Hnd]. cbn [List.find fst].
  apply elem_of_cons in Hin as [[= -> ->]|Hin].
  - by rewrite String.eqb_refl.
  - destruct (String.eqb k0 k) eqn:E; [|by apply IH].
    apply String.eqb_eq in E. subst k0. exfalso. apply Hk.
    apply list_elem_of_fmap. by exists (k, v).
Qed.

(** X13. An icon reference for every sport.  Over the mapping that
    [loadSportIconMapping] builds from any mapping file, and whatever icon
    files exist, [getSportIconUrl] gives the empty string for the empty
    sport name only; for any other name the reference is a path under
    sports/ or an address under the remote content folder.  The only names
    for which it gives no string are those that, trimmed and lower-cased,
    name an inherited member of the mapping object. *)
Theorem getSportIconUrl_reference (file : option (list (string * string)))
    (fileExists : string -> bool) (sportName : string) :
  match getSportIconUrl (loadSportIconMapping None file) fileExists sportName with
  | Some ref =>
      (ref = EmptyString <-> sportName = EmptyString) ∧
      (sportName <> EmptyString ->
       startsWith "sports/" ref = true ∨
       startsWith (iconUrlBase +:+ "SPORTS-") ref = true)
  | None =>
      arrayIncludes objectPrototypeKeys (toLowerCase (trim sportName)) = true
  end.
Proof.
  destruct (loadSportIconMapping_ok file) as [_ Hvalues].
  set (mapping := loadSportIconMapping None file) in *.
  assert (forall e, e ∈ mapping -> startsWith "sports/" (snd e) = true) as Hv
    by by apply Forall_forall.
  unfold getSportIconUrl.
  destruct sportName as [|c name]; [by cbn|]. cbn [truthy negb]. cbv zeta.
  set (sportName := String c name).
  assert (forall ref, startsWith "sports/" ref = true ∨
                      startsWith (iconUrlBase +:+ "SPORTS-") ref = true ->
            (ref = EmptyString <-> sportName = EmptyString) ∧
            (sportName <> EmptyString ->
             startsWith "sports/" ref = true ∨
             startsWith (iconUrlBase +:+ "SPORTS-") ref = true)) as Hshape.
  { intros ref Href. split; [|done]. split; [|done].
    intros ->. destruct Href as [H|H]; discriminate H. }
  unfold objGet.
  destruct (List.find (fun e => String.eqb (fst e) (toLowerCase (trim sportName))) mapping)
    as [e|] eqn:Hexact.
  { apply find_some_elem in Hexact as [He _]. apply Hv in He. cbn [truthyValue].
    rewrite (proj2 (truthy_true (snd e))) by (by apply (startsWith_nonempty "sports/")).
    apply Hshape. by left. }
  destruct (arrayIncludes objectPrototypeKeys (toLowerCase (trim sportName)));
    cbn [truthyValue]; [done|].
  destruct (List.find (fun e => iconKeyMatches (toLowerCase (trim sportName)) (fst e))
                      (objectEntries mapping)) as [e|] eqn:Hfuzzy.
  { apply Hshape. left. apply Hv. apply find_some_elem in Hfuzzy as [He _].
    by apply objectEntries_elem. }
  destruct (List.find fileExists _) as [fileName|].
  { apply Hshape. left. apply (startsWith_append "sports/"). }
  apply Hshape. right.
  change (iconUrlBase +:+ ("SPORTS-" +:+ ?a) +:+ ?b)
    with ((iconUrlBase +:+ "SPORTS-") +:+ (a +:+ b)).
  apply startsWith_append.
Qed.

(** X14. The table before the fallbacks.  Over the mapping that
    [loadSportIconMapping] builds, a sport name that, trimmed and lower-cased,
    is a key of the mapping gets the path filed under that key; a name that
    one of the keys matches (by containment, by a shared word or with the
    whitespace left out) gets a path of the mapping, never an icon file
    guessed from the name nor the remote address. *)
Theorem getSportIconUrl_table_first (file : option (list (string * string)))
    (fileExists : string -> bool) (sportName key iconPath : string) :
  let mapping := loadSportIconMapping None file in
  let sportKey := toLowerCase (trim sportName) in
  sportName <> EmptyString ->
  (key, iconPath) ∈ mapping ->
  (key = sportKey -> getSportIconUrl mapping fileExists sportName = Some iconPath) ∧
  (iconKeyMatches sportKey key = true ->
   match getSportIconUrl mapping fileExists sportName with
   | Some ref => exists k, (k, ref) ∈ mapping
   | None => True
   end).
Proof.
  intros mapping sportKey Hname Hin.
  destruct (loadSportIconMapping_ok file) as [Hnd Hvalues]. fold mapping in Hnd, Hvalues.
  assert (forall e, e ∈ mapping -> truthy (snd e) = true) as Hv.
  { intros e He. apply truthy_true, (startsWith_nonempty "sports/"); [|done].
    by apply (proj1 (Forall_forall _ _) Hvalues). }
  unfold getSportIconUrl. apply truthy_true in Hname. rewrite Hname. cbn [negb].
  fold sportKey. unfold objGet. split.
  - intros <-. rewrite (find_key_NoDup _ _ _ Hnd Hin). cbn [truthyValue snd].
    apply Hv in Hin. cbn [snd] in Hin. by rewrite Hin.
  - intros Hmatch.
    destruct (List.find (fun e => String.eqb (fst e) sportKey) mapping)
      as [[k v]|] eqn:Hexact.
    { apply find_some_elem in Hexact as [He _]. cbn [truthyValue snd].
      pose proof (Hv _ He) as Hvalue. cbn [snd] in Hvalue. rewrite Hvalue.
      by exists k. }
    destruct (arrayIncludes objectPrototypeKeys sportKey); cbn [truthyValue]; [done|].
    destruct (List.find (fun e => iconKeyMatches sportKey (fst e)) (objectEntries mapping))
      as [[k v]|] eqn:Hfuzzy.
    { apply find_some_elem in Hfuzzy as [He _].
      apply (proj1 (objectEntries_elem _ _)) in He. cbn [snd]. by exists k. }
    exfalso. apply (proj2 (objectEntries_elem _ _)), list_elem_of_In in Hin.
    apply (find_none _ _ Hfuzzy) in Hin. cbn [fst] in Hin. congruence.
Qed.

Lemma getSportIconUrl_table_first_witness :
  getSportIconUrl
    (loadSportIconMapping None
       (Some [("Aquatic Sports", "Icon_Aquatic.png"); ("Judo", "Icon_Judo.png")]))
    (fun _ => true) " Swimming " = Some "sports/Icon_Aquatic.png".
Proof.
  apply (proj1 (getSportIconUrl_table_first
                  (Some [("Aquatic Sports", "Icon_Aquatic.png"); ("Judo", "Icon_Judo.png")])
                  (fun _ => true) " Swimming " "swimming" "sports/Icon_Aquatic.png"
                  ltac:(discriminate)
                  ltac:(vm_compute; apply list_elem_of_further, list_elem_of_here))).
  reflexivity.
Defined.

(** ** Calendar dates *)

Lemma zrange_In (lo z : Z) (n : nat) :
  lo <= z < lo + Z.of_nat n -> In z (zrange lo n).
Proof.
  intros Hz. unfold zrange. apply in_map_iff. exists (Z.to_nat (z - lo)).
  split; [lia|]. apply in_seq. lia.
Qed.

Lemma forallb_zrange (p : Z -> bool) (lo : Z) (n : nat) (z : Z) :
  forallb p (zrange lo n) = true -> lo <= z < lo + Z.of_nat n -> p z = true.
Proof.
  intros H Hz. apply (proj1 (forallb_forall _ _) H). by apply zrange_In.
Qed.

Lemma cycle_months :
  forallb (fun y => forallb (fun m => monthOk y m) (zrange 1 12)) (zrange 0 400) = true.
Proof. vm_compute. reflexivity. Qed.

Lemma monthOk_cycle (y m : Z) : 0 <= y < 400 -> 1 <= m <= 12 -> monthOk y m = true.
Proof.
  intros Hy Hm.
  pose proof (forallb_zrange _ 0 400 y cycle_months ltac:(lia)) as H.
  cbv beta in H.
  exact (forallb_zrange _ 1 12 m H ltac:(lia)).
Qed.

Lemma civilFromDays_parts (z : Z) :
  civilFromDays z
  = (let m := if mpOf z <? 10 then mpOf z + 3 else mpOf z - 9 in
     (if m <=? 2 then yoeOf z + eraOf z * 400 + 1 else yoeOf z + eraOf z * 400,
      m, doyOf z - (153 * mpOf z + 2) / 5 + 1)).
Proof. reflexivity. Qed.

Lemma yearDays_step (x : Z) : 0 <= x < 146096 -> yearDays x <= yearDays (x + 1).
Proof.
  intros Hx. unfold yearDays.
  assert ((x + 1) / 1460 <= x / 1460 + 1) as H1.
  { rewrite <- (Z.div_add x 1 1460) by lia. apply Z.div_le_mono; lia. }
  assert (x / 36524 <= (x + 1) / 36524) as H2 by (apply Z.div_le_mono; lia).
  rewrite (Z.div_small x 146096) by lia.
  destruct (Z.eq_dec (x + 1) 146096) as [E|E].
  - assert (x = 146095) as -> by lia. vm_compute. discriminate.
  - rewrite (Z.div_small (x + 1) 146096) by lia. lia.
Qed.

Lemma yearDays_mono (a b : Z) : 0 <= a <= b -> b <= 146096 -> yearDays a <= yearDays b.
Proof.
  intros Hab Hb.
  replace b with (a + Z.of_nat (Z.to_nat (b - a))) in * by lia.
  induction (Z.to_nat (b - a)) as [|n IH].
  - replace (a + Z.of_nat 0) with a by lia. lia.
  - replace (a + Z.of_nat (S n)) with (a + Z.of_nat n + 1) in * by lia.
    etransitivity; [apply IH; lia|]. apply yearDays_step. lia.
Qed.

Lemma doeOf_range (z : Z) : 0 <= doeOf z <= 146096.
Proof.
  unfold doeOf, eraOf.
  pose proof (Z.mod_pos_bound (z + 719468) 146097 ltac:(lia)) as Hr.
  pose proof (Z.div_mod (z + 719468) 146097 ltac:(lia)) as Hs. lia.
Qed.

(** The days between two day numbers of one era, year and month are the
    days of that month in between. *)
Lemma civilFromDays_between (z1 z2 z : Z) :
  z1 <= z <= z2 ->
  eraOf z1 = eraOf z2 -> yoeOf z1 = yoeOf z2 -> mpOf z1 = mpOf z2 ->
  civilFromDays z = let '(y, m, d) := civilFromDays z1 in (y, m, d + (z - z1)).
Proof.
  intros Hz Hera Hyoe Hmp.
  assert (eraOf z = eraOf z1) as Ee.
  { assert (eraOf z1 <= eraOf z) by (apply Z.div_le_mono; lia).
    assert (eraOf z <= eraOf z2) by (apply Z.div_le_mono; lia). lia. }
  assert (eraOf z2 = eraOf z1) as Ee2 by lia.
  assert (doeOf z = doeOf z1 + (z - z1)) as Ed by (unfold doeOf; rewrite Ee; lia).
  assert (doeOf z2 = doeOf z1 + (z2 - z1)) as Ed2 by (unfold doeOf; rewrite Ee2; lia).
  pose proof (doeOf_range z1) as R1. pose proof (doeOf_range z2) as R2.
  assert (yoeOf z = yoeOf z1) as Ey.
  { assert (yoeOf z1 <= yoeOf z)
      by (apply Z.div_le_mono; [lia|apply yearDays_mono; lia]).
    assert (yoeOf z <= yoeOf z2)
      by (apply Z.div_le_mono; [lia|apply yearDays_mono; lia]). lia. }
  assert (yoeOf z2 = yoeOf z1) as Ey2 by lia.
  assert (doyOf z = doyOf z1 + (z - z1)) as Eo by (unfold doyOf; rewrite Ey, Ed; lia).
  assert (doyOf z2 = doyOf z1 + (z2 - z1)) as Eo2
    by (unfold doyOf; rewrite Ey2, Ed2; lia).
  assert (mpOf z = mpOf z1) as Em.
  { assert (mpOf z1 <= mpOf z) by (apply Z.div_le_mono; lia).
    assert (mpOf z <= mpOf z2) by (apply Z.div_le_mono; lia). lia. }
  rewrite !civilFromDays_parts. cbv zeta. rewrite Em, Ey, Ee, Eo.
  f_equal. lia.
Qed.

Lemma daysFromCivil_day (y m d : Z) :
  daysFromCivil y m d = daysFromCivil y m 1 + (d - 1).
Proof. unfold daysFromCivil. cbv zeta. lia. Qed.

Lemma daysFromCivil_cycle (y m d k : Z) :
  daysFromCivil (y + 400 * k) m d = daysFromCivil y m d + 146097 * k.
Proof.
  unfold daysFromCivil. cbv zeta.
  assert (forall a, (a + 400 * k) / 400 = a / 400 + k) as Hdiv.
  { intros a. replace (a + 400 * k) with (a + k * 400) by lia. by apply Z.div_add. }
  destruct (m <=? 2).
  - replace (y + 400 * k - 1) with (y - 1 + 400 * k) by lia. rewrite Hdiv.
    replace (y - 1 + 400 * k - ((y - 1) / 400 + k) * 400)
      with (y - 1 - (y - 1) / 400 * 400) by lia.
    lia.
  - rewrite Hdiv.
    replace (y + 400 * k - (y / 400 + k) * 400) with (y - y / 400 * 400) by lia.
    lia.
Qed.

Lemma civilFromDays_cycle (z k : Z) :
  civilFromDays (z + 146097 * k)
  = let '(y, m, d) := civilFromDays z in (y + 400 * k, m, d).
Proof.
  unfold civilFromDays. cbv zeta.
  replace (z + 146097 * k + 719468) with (z + 719468 + k * 146097) by lia.
  rewrite Z.div_add by lia.
  replace (z + 719468 + k * 146097 - ((z + 719468) / 146097 + k) * 146097)
    with (z + 719468 - (z + 719468) / 146097 * 146097) by lia.
  match goal with |- context [if ?c then _ else _] => destruct c end;
    f_equal; f_equal; lia.
Qed.

Lemma isLeapYear_cycle (y : Z) : isLeapYear (y mod 400) = isLeapYear y.
Proof.
  unfold isLeapYear.
  rewrite (Z.mod_mod_divide y 400 4) by (by exists 100).
  rewrite (Z.mod_mod_divide y 400 100) by (by exists 4).
  by rewrite Z.mod_mod by lia.
Qed.

(** The day number of a calendar date of the years 0 to 275759 gives the
    date back and lies in the range of time values. *)
Lemma civil_round_trip (y m d : Z) :
  0 <= y <= 275759 -> 1 <= m <= 12 -> 1 <= d <= daysInMonth y m ->
  civilFromDays (daysFromCivil y m d) = (y, m, d) ∧
  Z.abs (daysFromCivil y m d * msPerDay) <= 8640000000000000.
Proof.
  intros Hy Hm Hd.
  pose proof (Z.div_mod y 400 ltac:(lia)) as Hsplit.
  pose proof (Z.mod_pos_bound y 400 ltac:(lia)) as Hr.
  assert (0 <= y / 400 <= 689) as Hk.
  { split; [apply Z.div_pos; lia|].
    apply Z.lt_succ_r, Z.div_lt_upper_bound; lia. }
  assert (daysInMonth (y mod 400) m = daysInMonth y m) as Hdim
    by (unfold daysInMonth; by rewrite isLeapYear_cycle).
  pose proof (monthOk_cycle (y mod 400) m Hr Hm) as Hok.
  unfold monthOk in Hok. cbv zeta in Hok. rewrite Hdim in Hok.
  assert (daysFromCivil y m d
          = daysFromCivil (y mod 400) m 1 + (d - 1) + 146097 * (y / 400)) as Hz.
  { rewrite <- daysFromCivil_day, <- daysFromCivil_cycle. f_equal. lia. }
  rewrite Hz, civilFromDays_cycle.
  set (z1 := daysFromCivil (y mod 400) m 1) in *.
  destruct (civilFromDays z1) as [[y' m'] d'] eqn:Hfirst.
  apply andb_prop in Hok as [Hok Hlast].
  apply andb_prop in Hok as [Hok Hhigh].
  apply andb_prop in Hok as [Hok Hlow].
  apply andb_prop in Hok as [Hok Hmp].
  apply andb_prop in Hok as [Hok Hyoe].
  apply andb_prop in Hok as [Hok Hera].
  apply andb_prop in Hok as [Hok Hd'].
  apply andb_prop in Hok as [Hy' Hm'].
  apply Z.eqb_eq in Hy', Hm', Hd', Hera, Hyoe, Hmp. apply Z.leb_le in Hlow, Hhigh.
  rewrite (civilFromDays_between z1 (z1 + daysInMonth y m - 1) (z1 + (d - 1)))
    by (done || lia).
  rewrite Hfirst.
  split; [f_equal; [f_equal|]; lia|].
  unfold msPerDay.
  apply orb_prop in Hlast as [Hlate|Hearly].
  - apply Z.leb_le in Hlate. lia.
  - apply Z.leb_le in Hearly. lia.
Qed.

Lemma newDate_calendar (y monthIndex d : Z) :
  let ym := fullYear y + monthIndex / 12 in
  let mn := monthIndex mod 12 + 1 in
  0 <= ym <= 275759 -> 1 <= d <= daysInMonth ym mn ->
  formatDateObj (newDate (Some y) (Some monthIndex) (Some d)) = isoDate ym mn d.
Proof.
  intros ym mn Hy Hd.
  pose proof (Z.mod_pos_bound monthIndex 12 ltac:(lia)) as Hmn.
  destruct (civil_round_trip ym mn d Hy ltac:(unfold mn; lia) Hd) as [Hback Hclip].
  unfold newDate. cbv zeta. fold (fullYear y). fold ym. fold mn.
  replace (daysFromCivil ym mn 1 + d - 1) with (daysFromCivil ym mn d)
    by (rewrite (daysFromCivil_day ym mn d); lia).
  rewrite (proj2 (Z.leb_le _ _) Hclip). unfold formatDateObj.
  rewrite Z.div_mul by (unfold msPerDay; lia). by rewrite Hback.
Qed.

Lemma splitOn_free (sep : ascii -> bool) (p : string) :
  allChars (fun c => negb (sep c)) p = true -> splitOn sep p = [p].
Proof.
  induction p as [|a p IH]; cbn [allChars splitOn]; [done|].
  intros H. apply andb_prop in H as [Ha Hp]. apply negb_true_iff in Ha.
  by rewrite Ha, IH.
Qed.

Lemma splitOn_app (sep : ascii -> bool) (p rest : string) (c : ascii) :
  allChars (fun c => negb (sep c)) p = true -> sep c = true ->
  splitOn sep (p +:+ String c rest) = p :: splitOn sep rest.
Proof.
  intros Hp Hc. induction p as [|a p IH].
  - change (EmptyString +:+ String c rest) with (String c rest).
    cbn [splitOn]. by rewrite Hc.
  - change (String a p +:+ String c rest) with (String a (p +:+ String c rest)).
    cbn [allChars] in Hp. apply andb_prop in Hp as [Ha Hp]. apply negb_true_iff in Ha.
    cbn [splitOn]. by rewrite Ha, IH.
Qed.

Lemma splitOn_date (p0 p1 p2 : string) (s1 s2 : ascii) :
  noDateSep p0 = true -> noDateSep p1 = true -> noDateSep p2 = true ->
  isDateSep s1 = true -> isDateSep s2 = true ->
  splitOn isDateSep (p0 +:+ String s1 (p1 +:+ String s2 p2)) = [p0; p1; p2].
Proof.
  intros H0 H1 H2 Hs1 Hs2.
  by rewrite !splitOn_app, splitOn_free.
Qed.

Lemma splitOn_mapString (sep : ascii -> bool) (f : ascii -> ascii) (s : string) :
  (forall c, sep (f c) = sep c) ->
  splitOn sep (mapString f s) = map (mapString f) (splitOn sep s).
Proof.
  intros Hf. induction s as [|c s IH]; cbn [mapString splitOn]; [done|].
  rewrite Hf, IH. destruct (sep c); [done|]. by destruct (splitOn sep s).
Qed.

Lemma isDigit_cases (c : ascii) :
  isDigit c = true -> In c ["0"; "1"; "2"; "3"; "4"; "5"; "6"; "7"; "8"; "9"]%char.
Proof.
  destruct c as [[] [] [] [] [] [] [] []]; intros H; try discriminate H;
    cbn [In]; tauto.
Qed.

Lemma isDateSep_digit (c : ascii) :
  isDateSep (if isDigit c then "0"%char else c) = isDateSep c.
Proof.
  destruct (isDigit c) eqn:E; [|done].
  apply isDigit_cases in E. cbn [In] in E.
  repeat (destruct E as [<-|E]; [done|]). done.
Qed.

(** The last segment of a string of the form [dddd-dd-dd] reads as a number
    below 100. *)
Lemma isIsoDate_year (s p0 p1 p2 : string) :
  isIsoDate s = true -> splitOn isDateSep s = [p0; p1; p2] ->
  exists v, parseInt p2 = Some v ∧ v <= 99.
Proof.
  unfold isIsoDate. intros Hiso Hparts. apply String.eqb_eq in Hiso.
  pose proof (splitOn_mapString isDateSep _ s isDateSep_digit) as Hmap.
  rewrite Hiso, Hparts in Hmap. cbn in Hmap.
  injection Hmap as _ _ Hlast.
  destruct p2 as [|c1 [|c2 [|c3 p2]]]; try discriminate Hlast.
  cbn [mapString] in Hlast. injection Hlast as H1 H2.
  assert (isDigit c1 = true) as D1
    by (destruct (isDigit c1) eqn:E; [done|]; by rewrite <- H1 in E).
  assert (isDigit c2 = true) as D2
    by (destruct (isDigit c2) eqn:E; [done|]; by rewrite <- H2 in E).
  apply isDigit_cases in D1, D2. cbn [In] in D1, D2.
  repeat (destruct D1 as [<-|D1]; [
    repeat (destruct D2 as [<-|D2];
            [eexists; split; [reflexivity|vm_compute; discriminate]|]); done|]).
  done.
Qed.

(** X15. Day-first dates.  A text of three parts held apart by [/] or [-],
    whose parts read (by [parseInt]) as a day, a month and a year after 2000
    (and up to 275759, the last whole year of a [Date]) that name a calendar
    date, is normalised to that date as [YYYY-MM-DD], whatever the host's
    date parser does. *)
Theorem normalizeDate_day_first_dates (dateParse : string -> option Z)
    (p0 p1 p2 : string) (s1 s2 : ascii) (d m y : Z) :
  noDateSep p0 = true -> noDateSep p1 = true -> noDateSep p2 = true ->
  isDateSep s1 = true -> isDateSep s2 = true ->
  parseInt p0 = Some d -> parseInt p1 = Some m -> parseInt p2 = Some y ->
  2000 < y <= 275759 -> 1 <= m <= 12 -> 1 <= d <= daysInMonth y m ->
  normalizeDate dateParse (InString (p0 +:+ String s1 (p1 +:+ String s2 p2)))
  = isoDate y m d.
Proof.
  intros H0 H1 H2 Hs1 Hs2 Hd Hm Hy Hyear Hmonth Hday.
  pose proof (splitOn_date p0 p1 p2 s1 s2 H0 H1 H2 Hs1 Hs2) as Hparts.
  set (s := p0 +:+ String s1 (p1 +:+ String s2 p2)) in *.
  assert (truthy s = true) as Hs by (unfold s; by destruct p0).
  assert (isIsoDate s = false) as Hiso.
  { destruct (isIsoDate s) eqn:E; [|done].
    destruct (isIsoDate_year s p0 p1 p2 E Hparts) as (v & Hv & Hle).
    rewrite Hy in Hv. injection Hv as <-. lia. }
  unfold normalizeDate. rewrite Hs, Hiso, Hparts, Hd, Hm, Hy. cbn [negb gtNum].
  rewrite (proj2 (Z.ltb_lt 2000 y)) by lia.
  assert (formatDateObj (newDate (Some y) (Z.pred <$> Some m) (Some d)) = isoDate y m d)
    as Hdate.
  { cbn [fmap option_fmap option_map].
    pose proof (newDate_calendar y (Z.pred m) d) as Hnew. cbv zeta in Hnew.
    assert (fullYear y = y) as Ey
      by (unfold fullYear; rewrite (proj2 (Z.leb_gt y 99)) by lia; by rewrite andb_false_r).
    rewrite Ey, (Z.div_small (Z.pred m) 12), (Z.mod_small (Z.pred m) 12) in Hnew by lia.
    replace (y + 0) with y in Hnew by lia.
    replace (Z.pred m + 1) with m in Hnew by lia.
    apply Hnew; lia. }
  by destruct (Nat.eqb (String.length p0) 4).
Qed.

Lemma normalizeDate_day_first_dates_witness :
  normalizeDate (fun _ => None) (InString "25/12/2025") = "2025-12-25".
Proof.
  apply (normalizeDate_day_first_dates (fun _ => None) "25" "12" "2025" "/" "/"
           25 12 2025); try reflexivity; vm_compute; by split.
Defined.

(** X16. Month-first for years up to 2000.  When a text of three parts is not
    of the form [YYYY-MM-DD] and its third part does not read as a year after
    2000, the parts are handed to the [Date] constructor as month, day and
    year: the first part is the month, a year number below 100 counts from
    1900, and a month beyond 12 runs over into the following years.  So a
    year-first text such as 2025/12/25 comes out as another date, in
    September 2093. *)
Theorem normalizeDate_month_first (dateParse : string -> option Z)
    (p0 p1 p2 : string) (s1 s2 : ascii) (m d y : Z) :
  let s := p0 +:+ String s1 (p1 +:+ String s2 p2) in
  let year := fullYear y + (m - 1) / 12 in
  let month := (m - 1) mod 12 + 1 in
  noDateSep p0 = true -> noDateSep p1 = true -> noDateSep p2 = true ->
  isDateSep s1 = true -> isDateSep s2 = true ->
  isIsoDate s = false -> gtNum (parseInt p2) 2000 = false ->
  toNumber p0 = Some m -> toNumber p1 = Some d -> toNumber p2 = Some y ->
  0 <= year <= 275759 -> 1 <= d <= daysInMonth year month ->
  normalizeDate dateParse (InString s) = isoDate year month d.
Proof.
  intros s year month H0 H1 H2 Hs1 Hs2 Hiso Hsmall Hm Hd Hy Hyear Hday.
  pose proof (splitOn_date p0 p1 p2 s1 s2 H0 H1 H2 Hs1 Hs2) as Hparts.
  fold s in Hparts.
  assert (truthy s = true) as Hs by (unfold s; by destruct p0).
  unfold normalizeDate. rewrite Hs, Hiso, Hparts, Hsmall, Hm, Hd, Hy.
  cbn [negb fmap option_fmap option_map].
  by apply (newDate_calendar y (Z.pred m) d).
Qed.

Lemma normalizeDate_month_first_witness :
  normalizeDate (fun _ => None) (InString "2025/12/25") = "2093-09-12".
Proof.
  apply (normalizeDate_month_first (fun _ => None) "2025" "12" "25" "/" "/"
           2025 12 25); try reflexivity; vm_compute; by split.
Defined.

(** ** Medals *)

(** X17. Label and icon go together.  [normalizeMedal] gives an icon exactly
    when it gives a label; the label is then the trimmed cell, and the icon
    is the first of gold, silver and bronze that the cell names, whatever
    the case of its letters. *)
Theorem normalizeMedal_pairs (medalValue : string) :
  let label := fst (normalizeMedal medalValue) in
  let icon := snd (normalizeMedal medalValue) in
  let medalText := toLowerCase (trim medalValue) in
  (label = EmptyString <-> icon = EmptyString) ∧
  (icon = EmptyString ∨
   label = trim medalValue ∧
   (icon = "🥇" ∧ includes medalText "gold" = true ∨
    icon = "🥈" ∧ includes medalText "silver" = true ∧
      includes medalText "gold" = false ∨
    icon = "🥉" ∧ includes medalText "bronze" = true ∧
      includes medalText "silver" = false ∧ includes medalText "gold" = false)).
Proof.
  unfold normalizeMedal.
  destruct (truthy medalValue); cbn [negb]; [|by split; [|left]].
  destruct (truthy (toLowerCase (trim medalValue))) eqn:Ht; cbn [negb orb];
    [|by split; [|left]].
  assert (trim medalValue <> EmptyString) as Hlabel.
  { intros E. rewrite E in Ht. discriminate Ht. }
  destruct (arrayIncludes _ (toLowerCase (trim medalValue))); [by split; [|left]|].
  destruct (includes (toLowerCase (trim medalValue)) "gold") eqn:Hgold.
  { cbn [fst snd]. split; [by split|]. right. split; [done|]. by left. }
  destruct (includes (toLowerCase (trim medalValue)) "silver") eqn:Hsilver.
  { cbn [fst snd]. split; [by split|]. right. split; [done|]. right. by left. }
  destruct (includes (toLowerCase (trim medalValue)) "bronze") eqn:Hbronze.
  { cbn [fst snd]. split; [by split|]. right. split; [done|]. right. by right. }
  by split; [|left].
Qed.

(** ** The title of the deck *)

Lemma append_truthy (a b : string) : truthy b = true -> truthy (a +:+ b) = true.
Proof. destruct a; [done|]. by destruct b. Qed.

(** X18. The title of a deck.  For a key that is not of the form
    [YYYY-MM-DD] the title is the key in upper case, so a date asked for as
    25/12/2025 is shown as typed.  For a key of that form which the host
    reads as midnight of a calendar date, the title names the day, the
    month in words and the year; when the host rejects it, the title reads
    NAN UNDEFINED NAN.  The key that [generateHighlights] passes is never
    empty, so the title is never the default one for want of a key. *)
Theorem generateHTML_title (dateParse : string -> option Z) :
  (forall groupKey : string,
     groupKey <> EmptyString -> isIsoDate groupKey = false ->
     generateHTML_sectionTitle dateParse groupKey
     = "GOLD MEDALS FOR " +:+ toUpperCase groupKey) ∧
  (forall (groupKey : string) (y m d : Z),
     isIsoDate groupKey = true ->
     0 <= y <= 275759 -> 1 <= m <= 12 -> 1 <= d <= daysInMonth y m ->
     dateParse (groupKey +:+ "T00:00:00") = Some (daysFromCivil y m d * msPerDay) ->
     generateHTML_sectionTitle dateParse groupKey
     = "GOLD MEDALS FOR " +:+
       toUpperCase (numToString d +:+ " " +:+ monthName (m - 1) +:+ " " +:+ numToString y) ∧
     monthName (m - 1) ∈ months) ∧
  (forall groupKey : string,
     isIsoDate groupKey = true -> dateParse (groupKey +:+ "T00:00:00") = None ->
     generateHTML_sectionTitle dateParse groupKey = "GOLD MEDALS FOR NAN UNDEFINED NAN") ∧
  (forall date sport : string,
     exists formattedDate,
       formattedDate <> EmptyString ∧
       generateHTML_sectionTitle dateParse (groupKeyOf date sport)
       = "GOLD MEDALS FOR " +:+ toUpperCase formattedDate).
Proof.
  assert (forall s, isIsoDate s = true -> truthy s = true) as Hform.
  { intros s H. unfold isIsoDate in H. apply String.eqb_eq in H. by destruct s. }
  split; [|split; [|split]].
  - intros groupKey Hkey Hiso. unfold generateHTML_sectionTitle.
    apply truthy_true in Hkey. rewrite Hkey, Hiso. cbn [andb]. by rewrite Hkey.
  - intros groupKey y m d Hiso Hy Hm Hd Hparse. unfold generateHTML_sectionTitle.
    rewrite (Hform _ Hiso), Hiso, Hparse. cbn [andb].
    rewrite Z.div_mul by (unfold msPerDay; lia).
    destruct (civil_round_trip y m d Hy Hm Hd) as [-> _].
    split.
    + by rewrite append_truthy.
    + unfold monthName. rewrite (proj2 (Z.ltb_ge (m - 1) 0)) by lia.
      assert (Z.to_nat (m - 1) < length months)%nat as Hlt by (cbn; lia).
      destruct (lookup_lt_is_Some_2 months _ Hlt) as [name Hname].
      rewrite Hname. cbn [default]. by eapply list_elem_of_lookup_2.
  - intros groupKey Hiso Hparse. unfold generateHTML_sectionTitle.
    by rewrite (Hform _ Hiso), Hiso, Hparse.
  - intros date sport.
    assert (truthy (groupKeyOf date sport) = true) as Hkey.
    { unfold groupKeyOf, orElse. destruct (truthy date) eqn:E; [done|].
      by destruct (truthy sport) eqn:E'. }
    unfold generateHTML_sectionTitle. rewrite Hkey. cbn [andb].
    destruct (isIsoDate (groupKeyOf date sport)).
    + destruct (dateParse _) as [t|].
      * destruct (civilFromDays (t / msPerDay)) as [[year month] day].
        exists (numToString day +:+ " " +:+ monthName (month - 1) +:+ " " +:+
                numToString year).
        split; [by apply truthy_true, append_truthy|by rewrite append_truthy].
      * by exists "NaN undefined NaN".
    + exists (groupKeyOf date sport). rewrite Hkey. split; [|done].
      by apply truthy_true.
Qed.

Lemma generateHTML_title_witness :
  generateHTML_sectionTitle (fun _ => Some (daysFromCivil 2025 12 25 * msPerDay))
                            "2025-12-25"
  = "GOLD MEDALS FOR 25 DECEMBER 2025".
Proof.
  exact (proj1 (proj1 (proj2 (generateHTML_title _)) "2025-12-25" 2025 12 25
                  eq_refl ltac:(lia) ltac:(lia) ltac:(vm_compute; by split) eq_refl)).
Defined.
